(** * SQLiteExplorer: a shallow embedding of [sqliteexplorer.py]

    The development follows the layout of the source file:
    - [Py]: the few Python built-ins the explorer relies on (string
      methods, slicing, [%d]/[%g]/[%f] formatting, exceptions);
    - [Sqlite]: the storage engine as the explorer sees it, i.e. the answers
      to the statements the explorer issues;
    - [TableFormatter]: [format_table] and [format_markdown];
    - [Explorer]: [get_tables], [get_schema], [browse], [export_table],
      [get_stats], [search], [get_size], [diff] and [_format_size].

    Python integers are [Z], Python strings are [string] (one [ascii] per
    character), the values of a cell are the five storage classes of the
    engine.  Functions that may raise return a [result]. *)

From Stdlib Require Import ZArith Lia Bool Ascii String DecimalString.
From Stdlib Require Import SpecFloat.
From stdpp Require Import base option list sorting strings gmap.

Open Scope Z_scope.

(** ** Python built-ins *)

Module Py.

(** *** Exceptions *)

Inductive exn :=
| ValueError (msg : string)
| OperationalError
| IndexError
| KeyError
| TypeError
| ZeroDivisionError
| OverflowError.

Inductive result (A : Type) :=
| Ok (a : A)
| Raise (e : exn).
Arguments Ok {A} a.
Arguments Raise {A} e.

Definition bind {A B} (m : result A) (k : A -> result B) : result B :=
  match m with
  | Ok a => k a
  | Raise e => Raise e
  end.

(** [l[i]] on a list: [IndexError] when out of range (no negative index is
    ever used by the explorer). *)
Definition index {A} (l : list A) (i : nat) : result A :=
  match l !! i with
  | Some a => Ok a
  | None => Raise IndexError
  end.

Fixpoint mapM {A B} (f : A -> result B) (l : list A) : result (list B) :=
  match l with
  | [] => Ok []
  | a :: l' =>
      bind (f a) (fun b => bind (mapM f l') (fun bs => Ok (b :: bs)))
  end.

(** *** Strings *)

(** The double quote character, and the one-character string. *)
Definition dquote : ascii := ascii_of_nat 34.
Definition newline : ascii := ascii_of_nat 10.
Definition creturn : ascii := ascii_of_nat 13.
Definition backslash : ascii := ascii_of_nat 92.
Definition chr (c : ascii) : string := String c EmptyString.

(** [len(s)] *)
Definition len (s : string) : Z := Z.of_nat (String.length s).

(** [sep.join(l)] *)
Fixpoint join (sep : string) (l : list string) : string :=
  match l with
  | [] => EmptyString
  | [s] => s
  | s :: l' => s +:+ sep +:+ join sep l'
  end.

(** [c * n] for a one-character string [c] *)
Fixpoint repeat_char (c : ascii) (n : nat) : string :=
  match n with
  | O => EmptyString
  | S n' => String c (repeat_char c n')
  end.

(** [s.ljust(w)] and [s.rjust(w)]: pad with spaces up to [w] characters;
    a string that is already that long is returned as it is. *)
Definition ljust (s : string) (w : Z) : string :=
  s +:+ repeat_char " " (Z.to_nat (w - len s)).
Definition rjust (s : string) (w : Z) : string :=
  repeat_char " " (Z.to_nat (w - len s)) +:+ s.

(** The first [n] characters of [s]. *)
Fixpoint take (n : nat) (s : string) : string :=
  match n, s with
  | S n', String c s' => String c (take n' s')
  | _, _ => EmptyString
  end.

(** [s[:k]]: a negative [k] counts from the end of the string. *)
Definition slice_to (s : string) (k : Z) : string :=
  if k <? 0 then take (Z.to_nat (len s + k)) s else take (Z.to_nat k) s.

(** [s.replace(c, by)] for a one-character [c]. *)
Fixpoint replace (c : ascii) (by_ : string) (s : string) : string :=
  match s with
  | EmptyString => EmptyString
  | String a s' =>
      if Ascii.eqb a c then by_ +:+ replace c by_ s'
      else String a (replace c by_ s')
  end.

(** The case mapping of the letters a-z and A-Z. *)
Definition upper_char (c : ascii) : ascii :=
  let n := nat_of_ascii c in
  if ((97 <=? n)%nat && (n <=? 122)%nat)%bool then ascii_of_nat (n - 32) else c.
Definition lower_char (c : ascii) : ascii :=
  let n := nat_of_ascii c in
  if ((65 <=? n)%nat && (n <=? 90)%nat)%bool then ascii_of_nat (n + 32) else c.
Fixpoint map_chars (f : ascii -> ascii) (s : string) : string :=
  match s with
  | EmptyString => EmptyString
  | String c s' => String (f c) (map_chars f s')
  end.
Definition upper : string -> string := map_chars upper_char.
Definition lower : string -> string := map_chars lower_char.

(** [s.startswith(p)] and [s.startswith((p1, ..., pn))] *)
Definition startswith (s p : string) : bool := String.prefix p s.
Definition startswith_any (s : string) (ps : list string) : bool :=
  existsb (startswith s) ps.

(** [needle in hay] *)
Fixpoint contains (needle hay : string) : bool :=
  String.prefix needle hay ||
  match hay with
  | EmptyString => false
  | String _ hay' => contains needle hay'
  end.

(** [s in (s1, ..., sn)] *)
Definition str_in (s : string) (l : list string) : bool :=
  existsb (String.eqb s) l.

(** [str(n)] and ["%d" % n] for an integer. *)
Definition str_of_int (n : Z) : string := NilZero.string_of_int (Z.to_int n).

End Py.

Export Py(result, Ok, Raise).

Notation "'let*' x ':=' m 'in' k" := (Py.bind m (fun x => k))
  (at level 10, x pattern, m at level 100, k at level 200).

(** ** Python floats: binary64, printed with [%.Nf] and [%.Ng]

    A float is a [spec_float] of the standard library with [prec = 53] and
    [emax = 1024]; arithmetic is the library's ([SFdiv], [SFmul],
    [binary_normalize]: round to nearest, ties to even).  Printing converts
    the exact binary value to decimal, rounding half to even, as the
    runtime's correctly rounded conversion does. *)

Module PyFloat.

Abbreviation float := spec_float.
Definition prec : Z := 53.
Definition emax : Z := 1024.

(** [float(n)] for an int [n]. *)
Definition of_int (n : Z) : result float :=
  match binary_normalize prec emax n 0 false with
  | S754_infinity _ => Raise Py.OverflowError
  | f => Ok f
  end.

(** [a / b] on two ints: the correctly rounded quotient. *)
Definition int_true_div (a b : Z) : result float :=
  if b =? 0 then Raise Py.ZeroDivisionError
  else if a =? 0 then Ok (S754_zero (b <? 0))
  else
    match SFdiv prec emax
            (S754_finite (a <? 0) (Z.to_pos (Z.abs a)) 0)
            (S754_finite (b <? 0) (Z.to_pos (Z.abs b)) 0) with
    | S754_infinity _ => Raise Py.OverflowError
    | f => Ok f
    end.

Definition mul (x y : float) : float := SFmul prec emax x y.
Definition div (x y : float) : float := SFdiv prec emax x y.

(** [x >= y] *)
Definition geb (x y : float) : bool := SFleb y x.

(** [x * n] and [x / n] for a float [x] and an int [n]. *)
Definition mul_int (x : float) (n : Z) : result float :=
  let* y := of_int n in Ok (mul x y).

(** *** Exact decimal conversion *)

(** [a / b] rounded to the nearest integer, ties to even ([0 < b]). *)
Definition div_rne (a b : Z) : Z :=
  let q := a / b in
  let r := a mod b in
  match 2 * r ?= b with
  | Lt => q
  | Gt => q + 1
  | Eq => if Z.even q then q else q + 1
  end.

(** [N * 10^k / D] rounded to the nearest integer, ties to even. *)
Definition scale_rne (N D k : Z) : Z :=
  if 0 <=? k then div_rne (N * 10 ^ k) D else div_rne N (D * 10 ^ (- k)).

(** [10^k <= N / D] *)
Definition ge_pow10 (N D k : Z) : bool :=
  if 0 <=? k then D * 10 ^ k <=? N else D <=? N * 10 ^ (- k).

(** The number of decimal digits of [n] minus one, for [1 <= n]. *)
Fixpoint ilog10_fuel (fuel : nat) (n : Z) : Z :=
  match fuel with
  | O => 0
  | S fuel' => if n <? 10 then 0 else 1 + ilog10_fuel fuel' (n / 10)
  end.
Definition ilog10 (n : Z) : Z := ilog10_fuel (Z.to_nat (Z.log2 n)) n.

(** The exact value of a finite float [m * 2^e] as the fraction [N / D]. *)
Definition numerator (m : positive) (e : Z) : Z := Z.pos m * 2 ^ Z.max e 0.
Definition denominator (e : Z) : Z := 2 ^ Z.max (- e) 0.

(** The decimal exponent [X] of [N / D]: [10^X <= N / D < 10^(X+1)]. *)
Definition decimal_exponent (N D : Z) : Z :=
  let x := ilog10 N - ilog10 D in
  if ge_pow10 N D x then x else x - 1.

(** [N / D] rounded to [p] significant digits: the [p]-digit integer [d]
    and the decimal exponent [X] of the rounded value [d * 10^(X-p+1)]. *)
Definition round_sig (p : Z) (N D : Z) : Z * Z :=
  let X := decimal_exponent N D in
  let d := scale_rne N D (p - 1 - X) in
  if d =? 10 ^ p then (10 ^ (p - 1), X + 1) else (d, X).

(** [round(x, ndigits)] for [0 <= ndigits]: the double nearest to the
    decimal that [x] rounds to. *)
Definition round (x : float) (ndigits : Z) : float :=
  match x with
  | S754_finite s m e =>
      let n := scale_rne (numerator m e) (denominator e) ndigits in
      if n =? 0 then S754_zero s
      else SFdiv prec emax (S754_finite s (Z.to_pos n) 0)
                           (S754_finite false (Z.to_pos (10 ^ ndigits)) 0)
  | _ => x
  end.

(** *** Layout *)

(** Drop the zeros at the end of a digit string. *)
Fixpoint strip_zeros (s : string) : string :=
  match s with
  | EmptyString => EmptyString
  | String c s' =>
      match strip_zeros s' with
      | EmptyString => if Ascii.eqb c "0" then EmptyString else Py.chr c
      | t => String c t
      end
  end.

(** The characters of [s] from position [n] on. *)
Fixpoint drop (n : nat) (s : string) : string :=
  match n, s with
  | S n', String _ s' => drop n' s'
  | _, _ => s
  end.

Definition with_point (int_part frac : string) : string :=
  match frac with
  | EmptyString => int_part
  | _ => int_part +:+ "." +:+ frac
  end.

Definition sign_str (s : bool) : string := if s then "-" else "".

(** The exponent of the [e] style: a sign and at least two digits. *)
Definition exponent_str (X : Z) : string :=
  (if X <? 0 then "e-" else "e+") +:+
  (if Z.abs X <? 10 then "0" else "") +:+ Py.str_of_int (Z.abs X).

(** ["%.{p}g" % x] for [1 <= p]: [p] significant digits, fixed notation
    when the decimal exponent [X] satisfies [-4 <= X < p] and the [e] style
    otherwise, trailing zeros removed. *)
Definition format_g (p : Z) (x : float) : string :=
  match x with
  | S754_nan => "nan"
  | S754_infinity s => sign_str s +:+ "inf"
  | S754_zero s => sign_str s +:+ "0"
  | S754_finite s m e =>
      let '(d, X) := round_sig p (numerator m e) (denominator e) in
      let ds := Py.str_of_int d in
      sign_str s +:+
      (if (-4 <=? X) && (X <? p) then
         if 0 <=? X then
           with_point (Py.take (Z.to_nat (X + 1)) ds)
                      (strip_zeros (drop (Z.to_nat (X + 1)) ds))
         else
           "0." +:+ Py.repeat_char "0" (Z.to_nat (- X - 1)) +:+ strip_zeros ds
       else
         with_point (Py.take 1 ds) (strip_zeros (drop 1 ds)) +:+ exponent_str X)
  end.

(** ["%.{p}f" % x] for [0 <= p]: [p] digits after the point. *)
Definition format_f (p : Z) (x : float) : string :=
  match x with
  | S754_nan => "nan"
  | S754_infinity s => sign_str s +:+ "inf"
  | S754_zero s =>
      sign_str s +:+ with_point "0" (Py.repeat_char "0" (Z.to_nat p))
  | S754_finite s m e =>
      let n := scale_rne (numerator m e) (denominator e) p in
      let ds := Py.str_of_int n in
      let ds := Py.repeat_char "0" (Z.to_nat (p + 1 - Py.len ds)) +:+ ds in
      let k := Z.to_nat (Py.len ds - p) in
      sign_str s +:+ with_point (Py.take k ds) (drop k ds)
  end.

End PyFloat.

(** The double nearest to 3.14159265. *)
Definition float_3_14159265 : spec_float := S754_finite false 7074237743944945 (-51).

(** ** Cell values

    What the [sqlite3] module hands back for a cell: [None], an [int], a
    [float], a [str] or a [bytes] object. *)

Inductive Value :=
| VNone
| VInt (n : Z)
| VFloat (x : spec_float)
| VStr (s : string)
| VBytes (b : string).

Definition is_none (v : Value) : bool :=
  match v with VNone => true | _ => false end.

Abbreviation Row := (list Value).

(** The parts of the Python runtime and of its [csv] and [json] modules that
    the explorer calls and that this development does not define. *)
Class Runtime := {
  (** [str(x)] for a float: the shortest decimal that reads back as [x] *)
  float_repr : spec_float -> string;
  (** [str(b)] for a bytes object: its literal *)
  bytes_repr : string -> string;
  (** [float(s)] returns, i.e. does not raise [ValueError] *)
  float_parses : string -> bool;
  (** [s.lower()] and [s.upper()]: the case mapping of the runtime *)
  str_lower : string -> string;
  str_upper : string -> string;
  (** [csv.writer]: the text written for a list of rows of fields *)
  csv_rows : list (list string) -> string;
  (** [json.dumps(data, indent=2, ensure_ascii=False)] for a list of records *)
  json_dumps : list (list (string * Value)) -> string;
}.

(** [str(v)] *)
Definition py_str `{Runtime} (v : Value) : string :=
  match v with
  | VNone => "None"
  | VInt n => Py.str_of_int n
  | VFloat x => float_repr x
  | VStr s => s
  | VBytes b => bytes_repr b
  end.

(** ** The storage engine *)

Module Sqlite.

(** One row of [PRAGMA table_info]: cid, name, type, notnull, dflt_value, pk. *)
Record table_info_row := {
  ti_cid : Z;
  ti_name : string;
  ti_type : string;
  ti_notnull : Z;
  ti_dflt : Value;
  ti_pk : Z;
}.

(** One row of [PRAGMA index_list] (seq, name, unique, ...). *)
Record index_list_row := {
  il_seq : Z;
  il_name : string;
  il_unique : Z;
}.

(** One row of [PRAGMA foreign_key_list] (id, seq, table, from, to, ...). *)
Record fk_row := {
  fk_id : Z;
  fk_seq : Z;
  fk_table : string;
  fk_from : Value;
  fk_to : Value;
}.

(** One row of [sqlite_master] with [type = 'table']. *)
Record master_row := {
  m_name : string;
  m_sql : Value;
}.

(** The statements on table data that the explorer issues with a fixed
    text; the identifiers are spliced into the text between double quotes. *)
Inductive stmt :=
| Count (t : string)                  (* SELECT COUNT( * ) FROM t *)
| CountColumn (t c : string)          (* SELECT COUNT(c), COUNT(DISTINCT c) FROM t *)
| Numeric (t c : string)              (* SELECT MIN(c), MAX(c), AVG(c), SUM(c) FROM t *)
| SelectAll (t : string)              (* SELECT * FROM t *)
| Sample (t : string)                 (* SELECT * FROM t LIMIT 1 *)
| SumLength (t : string)              (* SELECT SUM(LENGTH(CAST(t AS TEXT))) FROM (SELECT * FROM t) *)
| Like (t : string) (cols : list string) (term : string) (limit : Z).
                                      (* SELECT * FROM t WHERE c1 LIKE ? OR ... LIMIT n *)

Inductive aggregate := MIN | MAX | AVG | SUM.

(** A database file as the explorer observes it. *)
Record db := {
  db_path : string;
  (** [st_size] of the file *)
  file_size : Z;
  page_size : Z;
  page_count : Z;
  freelist_count : Z;
  (** the rows of [sqlite_master] with [type = 'table'], in stored order *)
  master : list master_row;
  table_info : string -> list table_info_row;
  index_list : string -> list index_list_row;
  (** [PRAGMA index_info]: the third field (column name) of each row *)
  index_info : string -> list Value;
  foreign_key_list : string -> list fk_row;
  (** the rows stored in a table, in scan order *)
  table_rows : string -> list Row;
  (** the rows of a table for which one of the given columns is LIKE
      [%term%], in scan order *)
  like_rows : string -> list string -> string -> list Row;
  (** the value of an aggregate over a non-empty list of non-NULL values *)
  aggregate_value : aggregate -> list Value -> Value;
  (** whether two stored values are the same value for DISTINCT *)
  same_value : Value -> Value -> bool;
  (** the engine reports an error ([sqlite3.OperationalError]) on a statement *)
  fails : stmt -> bool;
  (** a statement given as text: [None] for [sqlite3.OperationalError],
      otherwise [cursor.description] (the column names, if any) and the rows *)
  execute_text : string -> option (option (list string) * list Row);
}.

(** [name LIKE pattern]: [%] matches any sequence of characters, [_] any
    single character, letters match regardless of case. *)
Fixpoint like (pattern s : string) : bool :=
  match pattern with
  | EmptyString => match s with EmptyString => true | _ => false end
  | String p pattern' =>
      if Ascii.eqb p "%" then
        (fix any_sequence (s : string) : bool :=
           like pattern' s ||
           match s with
           | EmptyString => false
           | String _ s' => any_sequence s'
           end) s
      else
        match s with
        | EmptyString => false
        | String c s' =>
            (Ascii.eqb p "_" || Ascii.eqb (Py.upper_char p) (Py.upper_char c))
            && like pattern' s'
        end
  end.

(** [SELECT name FROM sqlite_master WHERE type='table'
     AND name NOT LIKE 'sqlite_%' ORDER BY name] *)
Definition user_table_names (d : db) : list string :=
  merge_sort String.le
    (filter (fun n => like "sqlite_%" n = false) (m_name <$> master d)).

(** [SELECT name FROM sqlite_master WHERE type='table' AND name=?] has a row *)
Definition table_exists (d : db) (t : string) : bool :=
  existsb (String.eqb t) (m_name <$> master d).


(** [LIMIT n]: a negative [n] is no limit. *)
Definition limit_rows (n : Z) (rows : list Row) : list Row :=
  if n <? 0 then rows else firstn (Z.to_nat n) rows.

(** The values of column [c] of table [t], one per row: the column is
    found by its name in [table_info]. *)
Definition column_position (d : db) (t c : string) : option nat :=
  fst <$> list_find (fun r => ti_name r = c) (table_info d t).

Definition column_values (d : db) (t c : string) : list Value :=
  match column_position d t c with
  | Some i => (fun row => default VNone (row !! i)) <$> table_rows d t
  | None => []
  end.

Definition non_null (vs : list Value) : list Value :=
  filter (fun v => is_none v = false) vs.

(** Keep the first of each group of equal values. *)
Fixpoint distinct (same : Value -> Value -> bool) (vs : list Value) : list Value :=
  match vs with
  | [] => []
  | v :: vs' => v :: filter (fun w => same v w = false) (distinct same vs')
  end.

(** An aggregate skips NULLs and is NULL when nothing is left. *)
Definition aggregate_of (d : db) (a : aggregate) (vs : list Value) : Value :=
  match non_null vs with
  | [] => VNone
  | ws => aggregate_value d a ws
  end.

(** The answers to the statements: [None] is [sqlite3.OperationalError]. *)
Definition on {A} (d : db) (s : stmt) (answer : A) : option A :=
  if fails d s then None else Some answer.

Definition execute_count (d : db) (t : string) : option Z :=
  on d (Count t) (Z.of_nat (length (table_rows d t))).

Definition execute_count_column (d : db) (t c : string) : option (Z * Z) :=
  on d (CountColumn t c)
     (let vs := non_null (column_values d t c) in
      (Z.of_nat (length vs), Z.of_nat (length (distinct (same_value d) vs)))).

Definition execute_numeric (d : db) (t c : string) : option Row :=
  on d (Numeric t c)
     ((fun a => aggregate_of d a (column_values d t c)) <$> [MIN; MAX; AVG; SUM]).


(** [fetchone()] after [SELECT * FROM t LIMIT 1] *)
Definition execute_sample (d : db) (t : string) : option (option Row) :=
  on d (Sample t) (head (table_rows d t)).

Definition execute_sum_length (d : db) (t : string) : option unit :=
  on d (SumLength t) tt.

Definition execute_like (d : db) (t : string) (cols : list string)
    (term : string) (limit : Z) : option (list Row) :=
  on d (Like t cols term limit) (limit_rows limit (like_rows d t cols term)).

End Sqlite.

(** ** [TableFormatter] *)

Module TableFormatter.

(** References to Python lists, and the lists they refer to. *)
Abbreviation ref := nat.
Abbreviation store := (gmap nat (list Value)).

Section Formatter.
Context `{Runtime}.

(** *** [format_table] *)

(** The text of one cell (the loop that fills [str_rows]). *)
Definition stringify (val : Value) : string :=
  match val with
  | VNone => "NULL"
  | VBytes b => "<BLOB " +:+ Py.str_of_int (Py.len b) +:+ " bytes>"
  | VFloat x => PyFloat.format_g 6 x
  | _ =>
      Py.replace Py.creturn "\r" (Py.replace Py.newline "\n" (py_str val))
  end.

(** [for i, val in enumerate(row): if i < len(col_widths):
      col_widths[i] = max(col_widths[i], len(val))], from index [i] on. *)
Fixpoint widen (i : nat) (row : list string) (col_widths : list Z) : list Z :=
  match row with
  | [] => col_widths
  | val :: row' =>
      widen (S i) row'
        (if (i <? length col_widths)%nat
         then <[i := Z.max (col_widths !!! i) (Py.len val)]> col_widths
         else col_widths)
  end.

(** The widths before the cap, and the widths of the table. *)
Definition natural_widths (str_headers : list string) (str_rows : list (list string)) : list Z :=
  foldl (fun col_widths row => widen 0 row col_widths) (Py.len <$> str_headers) str_rows.

Definition column_widths (str_headers : list string) (str_rows : list (list string))
    (max_width : Z) : list Z :=
  (fun w => Z.min w max_width) <$> natural_widths str_headers str_rows.

Definition truncate (s : string) (width : Z) : string :=
  if Py.len s <=? width then s else Py.slice_to s (width - 3) +:+ "...".

Definition separator (col_widths : list Z) : string :=
  "+-" +:+ Py.join "-+-" ((fun w => Py.repeat_char "-" (Z.to_nat w)) <$> col_widths) +:+ "-+".

Definition header_line (str_headers : list string) (col_widths : list Z) : string :=
  "| " +:+
  Py.join " | " ((fun '(h, w) => Py.ljust (truncate h w) w) <$> zip str_headers col_widths)
  +:+ " |".

(** The cell of column [i], of width [w], of a stringified row: truncated,
    then right-aligned when the untruncated text reads as a number. *)
Definition render_cell (row : list string) (i : nat) (w : Z) : string :=
  match row !! i with
  | Some s =>
      if float_parses s then Py.rjust (truncate s w) w
      else Py.ljust (truncate s w) w
  | None => Py.ljust (truncate "" w) w
  end.

Definition row_line (col_widths : list Z) (row : list string) : string :=
  "| " +:+ Py.join " | " (imap (fun i w => render_cell row i w) col_widths) +:+ " |".

Definition footer (str_rows : list (list string)) : string :=
  match str_rows with
  | [] => "(0 rows)"
  | _ =>
      let n := Z.of_nat (length str_rows) in
      "(" +:+ Py.str_of_int n +:+ " row" +:+ (if n =? 1 then "" else "s") +:+ ")"
  end.

Definition format_table (headers : list string) (rows : list Row)
    (max_width : Z) (title : option string) : string :=
  match headers with
  | [] => "(no columns)"
  | _ =>
      let str_headers := headers in
      let str_rows := (fun row => stringify <$> row) <$> rows in
      let col_widths := column_widths str_headers str_rows max_width in
      let sep := separator col_widths in
      let lines :=
        (match title with
         | None | Some EmptyString => []
         | Some t => [EmptyString; t]
         end)
        ++ [sep; header_line str_headers col_widths; sep]
        ++ (row_line col_widths <$> str_rows)
        ++ [sep; footer str_rows] in
      Py.join (Py.chr Py.newline) lines
  end.


(** *** [format_markdown]

    The rows are Python lists, i.e. mutable objects: a row is a reference
    into a store of lists, so that an [append] is visible through every
    reference to the same list. *)

Definition read (h : store) (r : ref) : list Value := default [] (h !! r).

(** [r = []]: a new list object. *)
Definition new_list (h : store) : ref * store :=
  let r := fresh (dom h) in (r, <[r := []]> h).

(** [r.append(v)] *)
Definition append (h : store) (r : ref) (v : Value) : store :=
  <[r := read h r ++ [v]]> h.

Definition stringify_md (val : Value) : string :=
  match val with
  | VNone => "NULL"
  | VBytes b => "`<BLOB " +:+ Py.str_of_int (Py.len b) +:+ " bytes>`"
  | _ => Py.replace "|" "\|" (py_str val)
  end.

(** [str_row = []; for val in row: str_row.append(...)] *)
Definition stringify_row (row : ref) (h : store) : ref * store :=
  let '(str_row, h1) := new_list h in
  (str_row, foldl (fun h val => append h str_row (VStr (stringify_md val))) h1 (read h row)).

(** [for row in rows: ...; str_rows.append(str_row)] *)
Fixpoint stringify_rows (rows : list ref) (h : store) : list ref * store :=
  match rows with
  | [] => ([], h)
  | row :: rows' =>
      let '(str_row, h1) := stringify_row row h in
      let '(str_rows, h2) := stringify_rows rows' h1 in
      (str_row :: str_rows, h2)
  end.

(** [while len(row) < len(str_headers): row.append("")]; every turn makes
    the row longer, so [n] turns are enough. *)
Fixpoint pad_turns (turns : nat) (n : nat) (row : ref) (h : store) : store :=
  match turns with
  | O => h
  | S turns' =>
      if (length (read h row) <? n)%nat
      then pad_turns turns' n row (append h row (VStr EmptyString))
      else h
  end.
Definition pad (n : nat) (row : ref) (h : store) : store := pad_turns n n row h.

(** [sep.join(row)] raises [TypeError] on an item that is not a [str]. *)
Definition join_cells (sep : string) (cells : list Value) : result string :=
  let* texts :=
    Py.mapM (fun v => match v with VStr s => Ok s | _ => Raise Py.TypeError end) cells in
  Ok (Py.join sep texts).

(** The second loop over [str_rows]: pad, then add the line. *)
Fixpoint render_rows (n : nat) (str_rows : list ref) (lines : list string) (h : store)
    : result (list string) * store :=
  match str_rows with
  | [] => (Ok lines, h)
  | row :: str_rows' =>
      let h1 := pad n row h in
      match join_cells " | " (read h1 row) with
      | Ok text => render_rows n str_rows' (lines ++ ["| " +:+ text +:+ " |"]) h1
      | Raise e => (Raise e, h1)
      end
  end.

Definition format_markdown (headers : list string) (rows : list ref) (h : store)
    : result string * store :=
  match headers with
  | [] => (Ok "(no columns)", h)
  | _ =>
      let str_headers := headers in
      let '(str_rows, h1) := stringify_rows rows h in
      let lines :=
        ["| " +:+ Py.join " | " str_headers +:+ " |";
         "| " +:+ Py.join " | " ((fun _ => "---") <$> str_headers) +:+ " |"] in
      let '(lines', h2) := render_rows (length str_headers) str_rows lines h1 in
      (let* lines' := lines' in Ok (Py.join (Py.chr Py.newline) lines'), h2)
  end.

(** A call with rows that are fresh lists, as [export_table] makes it. *)
Fixpoint store_rows (rows : list Row) (h : store) : list ref * store :=
  match rows with
  | [] => ([], h)
  | row :: rows' =>
      let r := fresh (dom h) in
      let '(rs, h') := store_rows rows' (<[r := row]> h) in
      (r :: rs, h')
  end.

Definition format_markdown_of (headers : list string) (rows : list Row) : result string :=
  let '(refs, h) := store_rows rows ∅ in
  fst (format_markdown headers refs h).

End Formatter.
End TableFormatter.

(** ** A reference runtime

    Definitions of the [Runtime] parameters after CPython, used to evaluate
    the model on concrete inputs.  The theorems below hold for every
    runtime. *)

Module CPython.

(** The double nearest to the decimal [d * 10^k], for [0 < d]. *)
Definition of_decimal (d k : Z) : spec_float :=
  if 0 <=? k
  then SFdiv PyFloat.prec PyFloat.emax
         (S754_finite false (Z.to_pos (d * 10 ^ k)) 0) (S754_finite false 1 0)
  else SFdiv PyFloat.prec PyFloat.emax
         (S754_finite false (Z.to_pos d) 0) (S754_finite false (Z.to_pos (10 ^ (- k))) 0).

Definition reads_back (p d X : Z) (m : positive) (e : Z) : bool :=
  SFeqb (of_decimal d (X - p + 1)) (S754_finite false m e).

(** The [p]-digit decimal next to the rounded one, on the other side of the
    exact value. *)
Definition other_neighbour (p : Z) (N D : Z) : Z * Z :=
  let X := PyFloat.decimal_exponent N D in
  let k := p - 1 - X in
  let lo := if 0 <=? k then (N * 10 ^ k) / D else N / (D * 10 ^ (- k)) in
  let d := if PyFloat.scale_rne N D k =? lo then lo + 1 else lo in
  if d =? 10 ^ p then (10 ^ (p - 1), X + 1) else (d, X).

(** The shortest digits that read back as [m * 2^e], trying 1, 2, ... digits. *)
Fixpoint shortest_digits (more : nat) (p : Z) (m : positive) (e : Z) : Z * Z * Z :=
  let N := PyFloat.numerator m e in
  let D := PyFloat.denominator e in
  let '(d, X) := PyFloat.round_sig p N D in
  match more with
  | O => (d, X, p)
  | S more' =>
      if reads_back p d X m e then (d, X, p)
      else
        let '(d', X') := other_neighbour p N D in
        if reads_back p d' X' m e then (d', X', p)
        else shortest_digits more' (p + 1) m e
  end.

Definition float_repr (x : spec_float) : string :=
  match x with
  | S754_nan => "nan"
  | S754_infinity s => PyFloat.sign_str s +:+ "inf"
  | S754_zero s => PyFloat.sign_str s +:+ "0.0"
  | S754_finite s m e =>
      let '(d, X, p) := shortest_digits 16 1 m e in
      let ds := Py.str_of_int d in
      PyFloat.sign_str s +:+
      (if (-4 <=? X) && (X <? 16) then
         if 0 <=? X then
           let ds := ds +:+ Py.repeat_char "0" (Z.to_nat (X + 1 - p)) in
           let frac := PyFloat.strip_zeros (PyFloat.drop (Z.to_nat (X + 1)) ds) in
           Py.take (Z.to_nat (X + 1)) ds +:+ "." +:+
           (match frac with EmptyString => "0" | _ => frac end)
         else "0." +:+ Py.repeat_char "0" (Z.to_nat (- X - 1)) +:+ PyFloat.strip_zeros ds
       else
         PyFloat.with_point (Py.take 1 ds) (PyFloat.strip_zeros (PyFloat.drop 1 ds))
         +:+ PyFloat.exponent_str X)
  end.

Definition hex_digit (n : nat) : ascii :=
  if (n <? 10)%nat then ascii_of_nat (48 + n) else ascii_of_nat (87 + n).

(** The literal of a bytes object. *)
Definition bytes_repr (b : string) : string :=
  let quote : ascii :=
    if Py.contains "'" b && negb (Py.contains (Py.chr Py.dquote) b)
    then Py.dquote else "'"%char in
  let escape (c : ascii) : string :=
    let n := nat_of_ascii c in
    if Ascii.eqb c quote || Ascii.eqb c Py.backslash then String Py.backslash (Py.chr c)
    else if (n =? 9)%nat then "\t"
    else if (n =? 10)%nat then "\n"
    else if (n =? 13)%nat then "\r"
    else if ((n <? 32) || (126 <? n))%nat
         then "\x" +:+ String (hex_digit (n / 16)) (Py.chr (hex_digit (n mod 16)))
    else Py.chr c in
  "b" +:+ Py.chr quote +:+
  (fix go (s : string) : string :=
     match s with
     | EmptyString => EmptyString
     | String c s' => escape c +:+ go s'
     end) b
  +:+ Py.chr quote.

(** The grammar of [float(s)] on ASCII text. *)
Definition is_digit (c : ascii) : bool :=
  let n := nat_of_ascii c in ((48 <=? n) && (n <=? 57))%nat.
Definition is_space (c : ascii) : bool :=
  let n := nat_of_ascii c in ((9 <=? n) && (n <=? 13))%nat || (n =? 32)%nat.

Fixpoint lstrip (s : string) : string :=
  match s with
  | String c s' => if is_space c then lstrip s' else s
  | EmptyString => s
  end.
Definition strip (s : string) : string :=
  String.rev (lstrip (String.rev (lstrip s))).

(** Digits with single underscores between them; the rest of the text. *)
Fixpoint digit_part (after_digit : bool) (s : string) : bool * string :=
  match s with
  | String c s' =>
      if is_digit c then
        match digit_part true s' with
        | (_, rest) => (true, rest)
        end
      else if Ascii.eqb c "_" && after_digit then
        match s' with
        | String c' _ => if is_digit c' then digit_part false s' else (false, s)
        | EmptyString => (false, s)
        end
      else (false, s)
  | EmptyString => (false, s)
  end.

Definition exponent_ok (s : string) : bool :=
  match s with
  | EmptyString => true
  | String c s' =>
      if Ascii.eqb (Py.lower_char c) "e" then
        let s'' := match s' with
                   | String c' t => if Ascii.eqb c' "+" || Ascii.eqb c' "-" then t else s'
                   | EmptyString => s'
                   end in
        match digit_part false s'' with
        | (true, EmptyString) => true
        | _ => false
        end
      else false
  end.

Definition float_parses (s : string) : bool :=
  let s := strip s in
  let s := match s with
           | String c t => if Ascii.eqb c "+" || Ascii.eqb c "-" then t else s
           | EmptyString => s
           end in
  if Py.str_in (Py.lower s) ["inf"; "infinity"; "nan"] then true
  else
    let '(int_digits, rest) := digit_part false s in
    match rest with
    | String "." rest' =>
        let '(frac_digits, rest'') := digit_part false rest' in
        (int_digits || frac_digits) && exponent_ok rest''
    | _ => int_digits && exponent_ok rest
    end.

(** [csv.writer] with the default dialect. *)
Definition csv_field (alone : bool) (f : string) : string :=
  if Py.contains "," f || Py.contains (Py.chr Py.dquote) f
     || Py.contains (Py.chr Py.newline) f || Py.contains (Py.chr Py.creturn) f
     || (alone && String.eqb f EmptyString)
  then Py.chr Py.dquote +:+ Py.replace Py.dquote (String Py.dquote (Py.chr Py.dquote)) f
       +:+ Py.chr Py.dquote
  else f.

Definition csv_rows (rows : list (list string)) : string :=
  Py.join EmptyString
    ((fun row =>
        Py.join "," (csv_field (Nat.eqb (length row) 1) <$> row)
        +:+ String Py.creturn (Py.chr Py.newline)) <$> rows).

(** [json.dumps(data, indent=2, ensure_ascii=False)] for a list of records. *)
Definition json_string (s : string) : string :=
  let escape (c : ascii) : string :=
    let n := nat_of_ascii c in
    if Ascii.eqb c Py.dquote || Ascii.eqb c Py.backslash then String Py.backslash (Py.chr c)
    else if (n =? 8)%nat then "\b"
    else if (n =? 9)%nat then "\t"
    else if (n =? 10)%nat then "\n"
    else if (n =? 12)%nat then "\f"
    else if (n =? 13)%nat then "\r"
    else if (n <? 32)%nat
         then "\u00" +:+ String (hex_digit (n / 16)) (Py.chr (hex_digit (n mod 16)))
    else Py.chr c in
  Py.chr Py.dquote +:+
  (fix go (s : string) : string :=
     match s with
     | EmptyString => EmptyString
     | String c s' => escape c +:+ go s'
     end) s
  +:+ Py.chr Py.dquote.

Definition json_value (v : Value) : string :=
  match v with
  | VNone => "null"
  | VInt n => Py.str_of_int n
  | VFloat S754_nan => "NaN"
  | VFloat (S754_infinity s) => PyFloat.sign_str s +:+ "Infinity"
  | VFloat x => float_repr x
  | VStr s => json_string s
  | VBytes b => json_string ("<BLOB " +:+ Py.str_of_int (Py.len b) +:+ " bytes>")
  end.

Definition json_record (r : list (string * Value)) : string :=
  let nl := Py.chr Py.newline in
  match r with
  | [] => "{}"
  | _ =>
      "{" +:+ nl +:+
      Py.join ("," +:+ nl)
        ((fun '(k, v) => "    " +:+ json_string k +:+ ": " +:+ json_value v) <$> r)
      +:+ nl +:+ "  }"
  end.

Definition json_dumps (data : list (list (string * Value))) : string :=
  let nl := Py.chr Py.newline in
  match data with
  | [] => "[]"
  | _ =>
      "[" +:+ nl +:+
      Py.join ("," +:+ nl) ((fun r => "  " +:+ json_record r) <$> data)
      +:+ nl +:+ "]"
  end.

#[export] Instance runtime : Runtime := {
  float_repr := float_repr;
  bytes_repr := bytes_repr;
  float_parses := float_parses;
  str_lower := Py.lower;
  str_upper := Py.upper;
  csv_rows := csv_rows;
  json_dumps := json_dumps;
}.

End CPython.

(** ** [SQLiteExplorer] *)

Module Explorer.
Import Sqlite.

Section Explorer.
Context `{Runtime}.



(** An uncaught [sqlite3.OperationalError]. *)
Definition engine {A} (answer : option A) : result A :=
  match answer with
  | Some a => Ok a
  | None => Raise Py.OperationalError
  end.

(** *** [_format_size] *)

Definition units : list string := ["B"; "KB"; "MB"; "GB"; "TB"].

(** [while size >= 1024 and i < len(units) - 1: size /= 1024; i += 1],
    with [left] the distance from [i] to [len(units) - 1]. *)
Fixpoint scale_size (left : nat) (size : spec_float) (i : nat) : result (spec_float * nat) :=
  match left with
  | O => Ok (size, i)
  | S left' =>
      let* k := PyFloat.of_int 1024 in
      if PyFloat.geb size k
      then scale_size left' (PyFloat.div size k) (S i)
      else Ok (size, i)
  end.

Definition _format_size (size_bytes : Z) : result string :=
  if size_bytes <? 0 then Ok "N/A"
  else if size_bytes =? 0 then Ok "0 B"
  else
    let* size := PyFloat.of_int size_bytes in
    let* (size, i) := scale_size (length units - 1) size 0 in
    match i with
    | O => Ok (Py.str_of_int size_bytes +:+ " B")
    | _ =>
        let* unit := Py.index units i in
        Ok (PyFloat.format_f 1 size +:+ " " +:+ unit)
    end.

(** ["%.1f%%" % (a / b * 100)] *)
Definition percent (a b : Z) : result string :=
  let* q := PyFloat.int_true_div a b in
  let* p := PyFloat.mul_int q 100 in
  Ok (PyFloat.format_f 1 p +:+ "%").

(** *** [get_tables] *)

Record table_entry := {
  t_name : string;
  t_row_count : Z;
  t_column_count : Z;
}.

Definition get_tables (d : db) : list table_entry :=
  (fun name =>
     {| t_name := name;
        t_row_count :=
          match execute_count d name with
          | Some n => n
          | None => -1
          end;
        t_column_count := Z.of_nat (length (table_info d name)) |})
  <$> user_table_names d.

(** *** The existence check of [get_schema], [browse], [export_table]
    and [get_stats] *)

Definition not_found_message (table : string) (available : list string) : string :=
  "Table '" +:+ table +:+ "' not found. Available tables: " +:+
  (match available with
   | [] => "(none)"
   | _ => Py.join ", " available
   end).

Definition verify_table_exists (d : db) (table : string) : result unit :=
  if table_exists d table then Ok tt
  else
    let available := t_name <$> get_tables d in
    Raise (Py.ValueError (not_found_message table available)).

(** *** [get_schema] *)


Record index := {
  i_name : string;
  i_unique : bool;
  i_columns : list Value;
}.



(** [col[2] if col[2] else "ANY"] *)
Definition declared_type (col : table_info_row) : string :=
  match ti_type col with
  | EmptyString => "ANY"
  | ty => ty
  end.




(** *** [browse] and [query] *)








(** *** [export_table] *)

(** [record[h] = val] on a dict: a key that is present keeps its place. *)
Fixpoint dict_set (record : list (string * Value)) (h : string) (val : Value)
    : list (string * Value) :=
  match record with
  | [] => [(h, val)]
  | (k, v) :: record' =>
      if String.eqb k h then (k, val) :: record'
      else (k, v) :: dict_set record' h val
  end.

Definition blob_placeholder (b : string) : string :=
  "<BLOB " +:+ Py.str_of_int (Py.len b) +:+ " bytes>".

Definition json_record (headers : list string) (row : Row) : list (string * Value) :=
  foldl (fun record '(i, h) =>
           let val := default VNone (row !! i) in
           let val := match val with
                      | VBytes b => VStr (blob_placeholder b)
                      | _ => val
                      end in
           dict_set record h val)
        [] (imap pair headers).



(** *** [get_stats] *)

Record column_stat := {
  st_column : string;
  st_type : string;
  st_total_rows : Z;
  st_non_null : Z;
  st_null_count : Z;
  st_null_pct : string;
  st_distinct : Z;
  st_min : Value;
  st_max : Value;
  st_avg : Value;
  st_sum : Value;
}.

(** [round(v, 4)] *)
Definition round4 (v : Value) : result Value :=
  match v with
  | VInt n => Ok (VInt n)
  | VFloat x => Ok (VFloat (PyFloat.round x 4))
  | _ => Raise Py.TypeError
  end.

(** The [try] block of the numeric aggregates: [min], [max], [avg], [sum]. *)
Definition numeric_stats (d : db) (table col_name : string)
    : result (Value * Value * Value * Value) :=
  let absent := Ok (VNone, VNone, VNone, VNone) in
  match execute_numeric d table col_name with
  | None => absent
  | Some num_row =>
      match
        (let* mn := Py.index num_row 0 in
         let* mx := Py.index num_row 1 in
         let* av := Py.index num_row 2 in
         let* avg := if is_none av then Ok VNone else round4 av in
         let* sm := Py.index num_row 3 in
         Ok (mn, mx, avg, sm))
      with
      | Raise Py.OperationalError | Raise Py.TypeError => absent
      | r => r
      end
  end.

Definition column_stats (d : db) (table : string) (total_rows : Z)
    (col_info : table_info_row) : result column_stat :=
  let col_name := ti_name col_info in
  let col_type := declared_type col_info in
  let* (non_null, distinct_count) := engine (execute_count_column d table col_name) in
  let null_count := total_rows - non_null in
  let* null_pct :=
    if 0 <? total_rows then percent null_count total_rows else Ok "N/A" in
  let* (mn, mx, avg, sm) := numeric_stats d table col_name in
  Ok {| st_column := col_name; st_type := col_type; st_total_rows := total_rows;
        st_non_null := non_null; st_null_count := null_count;
        st_null_pct := null_pct; st_distinct := distinct_count;
        st_min := mn; st_max := mx; st_avg := avg; st_sum := sm |}.

Definition get_stats (d : db) (table : string) : result (list column_stat) :=
  let* _ := verify_table_exists d table in
  let columns_info := table_info d table in
  let* total_rows := engine (execute_count d table) in
  Py.mapM (column_stats d table total_rows) columns_info.

(** *** [search] *)

Record search_match := {
  sm_table : string;
  sm_matched_columns : list string;
  sm_data : gmap string Value;
}.

Definition text_types : list string :=
  [EmptyString; "TEXT"; "VARCHAR"; "CHAR"; "CLOB"; "ANY"; "STRING"; "NVARCHAR"].
Definition other_prefixes : list string :=
  ["INT"; "REAL"; "FLOAT"; "DOUBLE"; "NUMERIC"; "BLOB"; "BOOLEAN"].

(** The test that puts a column into [text_cols]. *)
Definition text_like (col : table_info_row) : bool :=
  let col_type := str_upper (ti_type col) in
  if Py.str_in col_type text_types then true
  else negb (Py.startswith_any col_type other_prefixes).

Definition text_columns (columns : list table_info_row) : list string :=
  ti_name <$> List.filter text_like columns.

(** [names.index(x)] *)
Fixpoint list_index (x : string) (names : list string) : result nat :=
  match names with
  | [] => Raise (Py.ValueError "x is not in list")
  | y :: names' =>
      if String.eqb y x then Ok O
      else let* i := list_index x names' in Ok (S i)
  end.

(** [val is not None and term.lower() in str(val).lower()] *)
Definition cell_matches (term : string) (val : Value) : bool :=
  negb (is_none val) && Py.contains (str_lower term) (str_lower (py_str val)).

(** The loop over [text_cols] that fills [matched_cols]. *)
Fixpoint matched_columns (term : string) (all_col_names : list string) (row : Row)
    (text_cols : list string) : result (list string) :=
  match text_cols with
  | [] => Ok []
  | col :: text_cols' =>
      let* idx := list_index col all_col_names in
      let* val := Py.index row idx in
      let* matched_cols := matched_columns term all_col_names row text_cols' in
      Ok (if cell_matches term val then col :: matched_cols else matched_cols)
  end.

(** [for i, col_name in enumerate(all_col_names): match_data[col_name] = row[i]] *)
Fixpoint match_data (i : nat) (all_col_names : list string) (row : Row)
    (data : gmap string Value) : result (gmap string Value) :=
  match all_col_names with
  | [] => Ok data
  | col_name :: names' =>
      let* val := Py.index row i in
      match_data (S i) names' row (<[col_name := val]> data)
  end.

(** [for row in rows: ...; remaining -= 1; if remaining <= 0: break] *)
Fixpoint scan_rows (tbl term : string) (all_col_names text_cols : list string)
    (rows : list Row) (matches : list search_match) (remaining : Z)
    : result (list search_match * Z) :=
  match rows with
  | [] => Ok (matches, remaining)
  | row :: rows' =>
      let* matched_cols := matched_columns term all_col_names row text_cols in
      let* data := match_data 0 all_col_names row ∅ in
      let matches :=
        matches ++ [{| sm_table := tbl; sm_matched_columns := matched_cols;
                       sm_data := data |}] in
      let remaining := remaining - 1 in
      if remaining <=? 0 then Ok (matches, remaining)
      else scan_rows tbl term all_col_names text_cols rows' matches remaining
  end.

(** [for tbl in search_tables: if remaining <= 0: break ...] *)
Fixpoint search_loop (d : db) (term : string) (search_tables : list string)
    (matches : list search_match) (remaining : Z) : result (list search_match) :=
  match search_tables with
  | [] => Ok matches
  | tbl :: tables' =>
      if remaining <=? 0 then Ok matches
      else
        let columns := table_info d tbl in
        let text_cols := text_columns columns in
        let all_col_names := ti_name <$> columns in
        match text_cols with
        | [] => search_loop d term tables' matches remaining
        | _ =>
            match execute_like d tbl text_cols term remaining with
            | None => search_loop d term tables' matches remaining
            | Some rows =>
                let* (matches, remaining) :=
                  scan_rows tbl term all_col_names text_cols rows matches remaining in
                search_loop d term tables' matches remaining
            end
        end
  end.

Definition search (d : db) (term : string) (tables : option (list string))
    (limit : Z) : result (list search_match) :=
  let search_tables :=
    match tables with
    | Some (t :: ts) => t :: ts
    | _ => t_name <$> get_tables d
    end in
  search_loop d term search_tables [] limit.

Definition default_limit : Z := 100.

(** *** [get_size] *)

Record table_size := {
  ts_table : string;
  ts_rows : Z;
  ts_columns : Z;
  ts_estimated_data_size : Z;
  ts_estimated_data_size_display : string;
}.

Record size_report := {
  sz_file_size : Z;
  sz_file_size_display : string;
  sz_page_size : Z;
  sz_page_count : Z;
  sz_used_pages : Z;
  sz_free_pages : Z;
  sz_used_space : Z;
  sz_used_space_display : string;
  sz_free_space : Z;
  sz_free_space_display : string;
  sz_free_pct : string;
  sz_tables : list table_size;
}.

(** [sum(len(str(v)) if v is not None else 0 for v in sample)] *)
Definition row_size (sample : Row) : Z :=
  foldl (fun total v => total + (if is_none v then 0 else Py.len (py_str v))) 0 sample.

(** The entry of the [except] branch. *)
Definition unavailable (tbl : table_entry) : table_size :=
  {| ts_table := t_name tbl; ts_rows := t_row_count tbl;
     ts_columns := t_column_count tbl;
     ts_estimated_data_size := 0;
     ts_estimated_data_size_display := "N/A" |}.

(** [if sample and tbl["row_count"] > 0: ... else: est_size = 0] *)
Definition estimate (tbl : table_entry) (sample : option Row) : Z :=
  match sample with
  | Some (v :: vs) =>
      if 0 <? t_row_count tbl then row_size (v :: vs) * t_row_count tbl else 0
  | _ => 0
  end.

(** One turn of the loop over the tables. *)
Definition table_size_of (d : db) (tbl : table_entry) : result table_size :=
  let tbl_name := t_name tbl in
  match execute_sum_length d tbl_name with
  | None => Ok (unavailable tbl)
  | Some _ =>
      match execute_sample d tbl_name with
      | None => Ok (unavailable tbl)
      | Some sample =>
          let est_size := estimate tbl sample in
          let* display := _format_size est_size in
          Ok {| ts_table := tbl_name; ts_rows := t_row_count tbl;
                ts_columns := t_column_count tbl;
                ts_estimated_data_size := est_size;
                ts_estimated_data_size_display := display |}
      end
  end.

Definition get_size (d : db) : result size_report :=
  let used_pages := page_count d - freelist_count d in
  let free_space := freelist_count d * page_size d in
  let used_space := used_pages * page_size d in
  let* table_sizes := Py.mapM (table_size_of d) (get_tables d) in
  let* file_size_display := _format_size (file_size d) in
  let* used_space_display := _format_size used_space in
  let* free_space_display := _format_size free_space in
  let* free_pct :=
    if 0 <? page_count d then percent (freelist_count d) (page_count d)
    else Ok "0.0%" in
  Ok {| sz_file_size := file_size d; sz_file_size_display := file_size_display;
        sz_page_size := page_size d; sz_page_count := page_count d;
        sz_used_pages := used_pages; sz_free_pages := freelist_count d;
        sz_used_space := used_space; sz_used_space_display := used_space_display;
        sz_free_space := free_space; sz_free_space_display := free_space_display;
        sz_free_pct := free_pct; sz_tables := table_sizes |}.

(** *** [diff] *)





(** [sorted(s)] for a set of strings. *)
Definition sorted (s : gset string) : list string :=
  merge_sort String.le (elements s).






End Explorer.
End Explorer.

(** ** The display functions of the command line *)

Module Cli.
Import Sqlite Explorer.

Section Cli.
Context `{Runtime}.


(** *** [_display_tables] *)


(** [sum(t["row_count"] for t in tables if t["row_count"] >= 0)] *)
Definition total_rows (tables : list table_entry) : Z :=
  foldl Z.add 0 (t_row_count <$> List.filter (fun t => 0 <=? t_row_count t) tables).


(** *** [_display_diff] *)






End Cli.
End Cli.

(** ** [get_info] *)

Module Metadata.
Import Sqlite Explorer.

(** What [get_info] reads besides what [Sqlite.db] holds: the time of the
    last change of the file as [isoformat()] writes it, the answers of
    [sqlite_version()], [PRAGMA journal_mode] and [PRAGMA encoding], and the
    rows of [sqlite_master] that are not tables. *)
Record facts := {
  modified : string;
  sqlite_version : Value;
  journal_mode : Value;
  encoding : Value;
  index_names : list string;
  views : Z;
  triggers : Z;
}.

Record info := {
  i_path : string;
  i_file_size : Z;
  i_file_size_display : string;
  i_modified : string;
  i_sqlite_version : Value;
  i_page_size : Z;
  i_page_count : Z;
  i_freelist_count : Z;
  i_journal_mode : Value;
  i_encoding : Value;
  i_table_count : Z;
  i_index_count : Z;
  i_view_count : Z;
  i_trigger_count : Z;
}.

(** [SELECT COUNT( * ) FROM sqlite_master WHERE type=... AND name NOT LIKE 'sqlite_%'] *)
Definition count_user (names : list string) : Z :=
  Z.of_nat (length (List.filter (fun n => negb (like "sqlite_%" n)) names)).

Definition get_info (d : db) (f : facts) : result info :=
  let table_count := count_user (m_name <$> master d) in
  let index_count := count_user (index_names f) in
  let* file_size_display := _format_size (file_size d) in
  Ok {| i_path := db_path d;
        i_file_size := file_size d;
        i_file_size_display := file_size_display;
        i_modified := modified f;
        i_sqlite_version := sqlite_version f;
        i_page_size := page_size d;
        i_page_count := page_count d;
        i_freelist_count := freelist_count d;
        i_journal_mode := journal_mode f;
        i_encoding := encoding f;
        i_table_count := table_count;
        i_index_count := index_count;
        i_view_count := views f;
        i_trigger_count := triggers f |}.

End Metadata.

(** ** The connection and [vacuum] *)

Module Connection.

(** A connection object of [sqlite3]: which one it is, and its
    [row_factory] once [_connect] has set it. *)
Record connection := {
  handle : nat;
  row_factory : bool;
}.

(** The explorer object: its path and its [_conn] attribute. *)
Record explorer := {
  db_path : string;
  _conn : option connection;
}.

Section Connection.
(** [sqlite3.connect(uri, uri=True)] and [sqlite3.connect(path)]: the handle
    of the new connection, or the exception. *)
Variable connect_uri : string -> result nat.
Variable connect_path : string -> result nat.

(** ["file:%s?mode=ro" % str(self.db_path).replace("\\", "/")] *)
Definition uri (self : explorer) : string :=
  "file:" +:+ Py.replace Py.backslash "/" (db_path self) +:+ "?mode=ro".

Definition _connect (readonly : bool) (self : explorer) : result connection * explorer :=
  match _conn self with
  | Some conn => (Ok conn, self)
  | None =>
      let opened :=
        if readonly then
          match connect_uri (uri self) with
          | Raise Py.OperationalError => connect_path (db_path self)
          | r => r
          end
        else connect_path (db_path self) in
      match opened with
      | Ok h =>
          let conn := {| handle := h; row_factory := true |} in
          (Ok conn, {| db_path := db_path self; _conn := Some conn |})
      | Raise e => (Raise e, self)
      end
  end.

(** [close]: the handle that is closed, if any, and the explorer after. *)
Definition close (self : explorer) : option nat * explorer :=
  match _conn self with
  | Some conn => (Some (handle conn), {| db_path := db_path self; _conn := None |})
  | None => (None, self)
  end.

End Connection.

(** *** [vacuum] *)

Record vacuum_report := {
  before_size : Z;
  before_size_display : string;
  after_size : Z;
  after_size_display : string;
  saved : Z;
  saved_display : string;
  saved_pct : string;
}.

(** [before] is the size of the file when [vacuum] is called; [vacuumed] is
    what opening the file and running VACUUM on it gives: the size of the
    file afterwards, or the exception. *)
Definition vacuum (self : explorer) (before : Z) (vacuumed : result Z)
    : result vacuum_report * explorer :=
  let self := (close self).2 in
  (let* after := vacuumed in
   let saved := before - after in
   let* before_display := Explorer._format_size before in
   let* after_display := Explorer._format_size after in
   let* saved_display := Explorer._format_size saved in
   let* saved_pct :=
     if 0 <? before then Explorer.percent saved before else Ok "0.0%" in
   Ok {| before_size := before; before_size_display := before_display;
         after_size := after; after_size_display := after_display;
         saved := saved; saved_display := saved_display;
         saved_pct := saved_pct |},
   self).

End Connection.

(** ** What the engine guarantees

    Facts about the answers of the engine that some properties below rely
    on: they are stated as hypotheses where they are used. *)

Module Invariant.
Import Sqlite.



End Invariant.

(** ** The vocabulary of the properties *)

Section Vocabulary.
Context `{Runtime}.
Import Sqlite TableFormatter Explorer.


(** The sum of the lengths of the texts of the cells that are not NULL. *)
Definition text_length (row : Row) : Z :=
  foldr Z.add 0 ((fun v => Py.len (py_str v)) <$> non_null row).





(** The cell of [row] that the loop compares with the width of column [j],
    when the loop starts at index [i]. *)
Definition cell_from (i : nat) (row : list string) (j : nat) : option string :=
  if (i <=? j)%nat then row !! (j - i)%nat else None.

(** The width of column [j] before the cap: at least the header, at least
    every cell of the column, and equal to one of them. *)
Definition widest (w : Z) (rows : list (list string)) (j : nat) (w0 : Z) : Prop :=
  w <= w0 /\
  (forall row s, row ∈ rows -> row !! j = Some s -> Py.len s <= w0) /\
  (w0 = w \/ exists row s, row ∈ rows /\ row !! j = Some s /\ w0 = Py.len s).

(** The value is a [str]. *)
Definition is_str (v : Value) : Prop :=
  match v with VStr _ => True | _ => False end.

(** The powers of ten [10^k] for an integer [k], as the fraction
    [pow10_up k / pow10_down k]. *)
Definition pow10_up (k : Z) : Z := 10 ^ Z.max k 0.
Definition pow10_down (k : Z) : Z := 10 ^ Z.max (- k) 0.


End Vocabulary.

(** ** The vocabulary of the properties of the whole program *)

Section Readings.
Context `{Runtime}.
Import Sqlite TableFormatter Explorer.

(** The character [c] occurs in [s]. *)
Fixpoint has_char (c : ascii) (s : string) : bool :=
  match s with
  | EmptyString => false
  | String a s' => Ascii.eqb a c || has_char c s'
  end.

(** The control characters of ASCII. *)
Definition control (c : ascii) : Prop := (nat_of_ascii c < 32)%nat.



(** The value that the JSON export stores for cell [i] of a row. *)
Definition exported_cell (row : Row) (i : nat) : Value :=
  match default VNone (row !! i) with
  | VBytes b => VStr (blob_placeholder b)
  | v => v
  end.

(** The cells of a Markdown row under [n] headers: the texts of the values,
    then empty cells up to [n]. *)
Definition md_cells (n : nat) (row : Row) : list string :=
  (stringify_md <$> row) ++ replicate (n - length row) EmptyString.

Definition md_line (n : nat) (row : Row) : string :=
  "| " +:+ Py.join " | " (md_cells n row) +:+ " |".




(** 1024 as a float. *)
Definition kilo : spec_float := S754_finite false 4503599627370496 (-42).

End Readings.

(** ** A sample database *)

Module Demo.
Import Sqlite.

Definition col (cid : Z) (name ty : string) : table_info_row :=
  {| ti_cid := cid; ti_name := name; ti_type := ty; ti_notnull := 0;
     ti_dflt := VNone; ti_pk := if cid =? 0 then 1 else 0 |}.

Definition users_info : list table_info_row :=
  [col 0 "id" "INTEGER"; col 1 "name" "TEXT"; col 2 "email" "TEXT";
   col 3 "age" "INTEGER"; col 4 "nickname" "TEXT"].

Definition users_rows : list Row :=
  [[VInt 1; VStr "Alice"; VStr "alice@example.com"; VInt 30; VNone];
   [VInt 2; VStr "Bob"; VNone; VInt 25; VNone];
   [VInt 3; VStr "Alicia"; VStr "al@example.com"; VNone; VNone]].

Definition empty_info : list table_info_row :=
  [col 0 "id" "INTEGER"; col 1 "note" "TEXT"].

Definition info_of (t : string) : list table_info_row :=
  if String.eqb t "users" then users_info
  else if String.eqb t "empty" then empty_info
  else [].

Definition rows_of (t : string) : list Row :=
  if String.eqb t "users" then users_rows else [].

(** The cell of column [c] in a row of table [t]. *)
Definition cell (t c : string) (row : Row) : Value :=
  match list_find (fun r => ti_name r = c) (info_of t) with
  | Some (i, _) => default VNone (row !! i)
  | None => VNone
  end.

(** [WHERE c1 LIKE '%term%' OR ...] on text and integer cells. *)
Definition selected (t : string) (cols : list string) (term : string) (row : Row) : bool :=
  existsb
    (fun c =>
       match cell t c row with
       | VStr s => like ("%" +:+ term +:+ "%") s
       | VInt n => like ("%" +:+ term +:+ "%") (Py.str_of_int n)
       | _ => false
       end) cols.

(** MIN, MAX and SUM of integers; nothing else is stored in the sample. *)
Definition integers (vs : list Value) : list Z :=
  omap (fun v => match v with VInt n => Some n | _ => None end) vs.

Definition aggregate_integers (a : aggregate) (vs : list Value) : Value :=
  match integers vs with
  | [] => VNone
  | n :: ns =>
      match a with
      | MIN => VInt (foldr Z.min n ns)
      | MAX => VInt (foldr Z.max n ns)
      | SUM => VInt (foldr Z.add n ns)
      | AVG =>
          match PyFloat.int_true_div (foldr Z.add n ns) (Z.of_nat (length (n :: ns))) with
          | Ok x => VFloat x
          | Raise _ => VNone
          end
      end
  end.

Definition same (v w : Value) : bool :=
  match v, w with
  | VInt n, VInt m => n =? m
  | VStr s, VStr t => String.eqb s t
  | _, _ => false
  end.

Definition database : db :=
  {| db_path := "demo.db";
     file_size := 16384;
     page_size := 4096;
     page_count := 4;
     freelist_count := 0;
     master :=
       [{| m_name := "users"; m_sql := VStr "CREATE TABLE users (...)" |};
        {| m_name := "sqlite_sequence"; m_sql := VStr "CREATE TABLE sqlite_sequence(name,seq)" |};
        {| m_name := "empty"; m_sql := VStr "CREATE TABLE empty (...)" |}];
     table_info := info_of;
     index_list := fun _ => [];
     index_info := fun _ => [];
     foreign_key_list := fun _ => [];
     table_rows := rows_of;
     like_rows := fun t cols term => List.filter (selected t cols term) (rows_of t);
     aggregate_value := aggregate_integers;
     same_value := same;
     fails := fun _ => false;
     execute_text := fun _ => None |}.

(** A store with one row of one cell, and a header of two columns. *)
Definition short_row_store : gmap nat (list Value) := {[ 1%nat := [VInt 1] ]}.

End Demo.

(** * Properties *)

(** ** The built-ins on examples *)

Example str_of_int_ex : Py.str_of_int 0 = "0" /\ Py.str_of_int (-15) = "-15" /\ Py.str_of_int 42 = "42".
Proof. repeat split; reflexivity. Qed.

Example slice_ex : Py.slice_to "abcdef" (-1) = "abcde" /\ Py.slice_to "abcdef" 2 = "ab".
Proof. split; reflexivity. Qed.

Example contains_ex : Py.contains "lic" "Alice" = true /\ Py.contains "" "" = true /\ Py.contains "x" "Alice" = false.
Proof. repeat split; reflexivity. Qed.

Example format_g_pi : PyFloat.format_g 6 float_3_14159265 = "3.14159".
Proof. vm_compute. reflexivity. Qed.

(** The float written 3.14159265 is the double nearest to that decimal, and
    [repr] prints it back. *)
Example float_3_14159265_ex :
  CPython.of_decimal 314159265 (-8) = float_3_14159265 /\
  CPython.float_repr float_3_14159265 = "3.14159265".
Proof. split; vm_compute; reflexivity. Qed.

Example like_ex :
  Sqlite.like "sqlite_%" "sqlite_sequence" = true /\
  Sqlite.like "sqlite_%" "SQLiteX" = true /\
  Sqlite.like "sqlite_%" "sqlite" = false /\
  Sqlite.like "sqlite_%" "users" = false.
Proof. repeat split; reflexivity. Qed.

(** ** Exceptions *)

Lemma bind_Ok {A B} (m : result A) (k : A -> result B) (b : B) :
  Py.bind m k = Ok b <-> exists a, m = Ok a /\ k a = Ok b.
Proof.
  destruct m as [a|e]; simpl; split.
  - intros Hk. exists a. split; [reflexivity | exact Hk].
  - intros (a' & Ha & Hk). injection Ha as ->. exact Hk.
  - discriminate.
  - intros (a' & Ha & _). discriminate.
Qed.

(** Split a hypothesis [let* x := m in k = Ok b] into its two steps. *)
Ltac unbind H :=
  let a := fresh "a" in
  let Ha := fresh "Hstep" in
  apply bind_Ok in H; destruct H as (a & Ha & H).

Tactic Notation "unbind_in" hyp(H) "as" ident(a) ident(Ha) :=
  apply bind_Ok in H; destruct H as (a & Ha & H).



Lemma mapM_Ok_length {A B} (f : A -> result B) (l : list A) (bs : list B) :
  Py.mapM f l = Ok bs -> length bs = length l.
Proof.
  revert bs. induction l as [|a l IH]; simpl; intros bs Hm.
  - injection Hm as <-. reflexivity.
  - unbind Hm. unbind Hm. injection Hm as <-. simpl. f_equal. eauto.
Qed.

Lemma mapM_Ok_lookup {A B} (f : A -> result B) (l : list A) (bs : list B) i a :
  Py.mapM f l = Ok bs -> l !! i = Some a ->
  exists b, bs !! i = Some b /\ f a = Ok b.
Proof.
  revert bs i. induction l as [|x l IH]; simpl; intros bs i Hm Hl.
  - discriminate.
  - unbind Hm. unbind Hm. injection Hm as <-.
    destruct i as [|i]; simpl in *.
    + injection Hl as ->. eauto.
    + eauto.
Qed.

Lemma mapM_total {A B} (f : A -> result B) (l : list A) :
  (forall a, a ∈ l -> exists b, f a = Ok b) -> exists bs, Py.mapM f l = Ok bs.
Proof.
  induction l as [|a l IH]; simpl; intros Hf.
  - eauto.
  - destruct (Hf a) as [b Hb]; [left|].
    destruct IH as [bs Hbs]; [intros; apply Hf; by right|].
    rewrite Hb, Hbs. simpl. eauto.
Qed.

(** ** [search]: the limit and the matched columns *)

Section Search.
Context `{Runtime}.
Import Sqlite Explorer.

(** Every turn of the row loop adds one match and takes one off [remaining]. *)
Lemma scan_rows_count tbl term names cols rows ms r ms' r' :
  0 < r ->
  scan_rows tbl term names cols rows ms r = Ok (ms', r') ->
  0 <= r' /\ Z.of_nat (length ms') + r' = Z.of_nat (length ms) + r.
Proof.
  revert ms r. induction rows as [|row rows IH]; simpl; intros ms r Hr Hs.
  - injection Hs as <- <-. lia.
  - unbind Hs. unbind Hs.
    destruct (r - 1 <=? 0) eqn:Hstop.
    + injection Hs as <- <-. rewrite length_app. simpl. lia.
    + apply IH in Hs; [|lia]. rewrite length_app in Hs. simpl in Hs. lia.
Qed.




(** A row loop that is left with something remaining has seen every row. *)
Lemma scan_rows_all tbl term names cols rows ms r ms' r' :
  0 < r ->
  scan_rows tbl term names cols rows ms r = Ok (ms', r') ->
  0 < r' -> length ms' = (length ms + length rows)%nat.
Proof.
  revert ms r. induction rows as [|row rows IH]; simpl; intros ms r Hr Hs Hr'.
  - injection Hs as <- <-. lia.
  - unbind Hs. unbind Hs.
    destruct (r - 1 <=? 0) eqn:Hstop.
    + injection Hs as <- <-. lia.
    + apply IH in Hs; [|lia|lia]. rewrite length_app in Hs. simpl in Hs. lia.
Qed.










End Search.


Section Matched.
Context `{Runtime}.
Import Sqlite Explorer.







End Matched.


(** ** The existence check *)

Section NotFound.
Import Sqlite Explorer.




Lemma table_exists_iff (d : db) (t : string) :
  table_exists d t = true <-> t ∈ (m_name <$> master d).
Proof.
  unfold table_exists. rewrite existsb_exists. split.
  - intros (n & Hn & Heq). apply String.eqb_eq in Heq as ->. by apply list_elem_of_In.
  - intros Ht. exists t. split; [by apply list_elem_of_In|]. apply String.eqb_refl.
Qed.


Lemma verify_present (d : db) (t : string) :
  t ∈ (m_name <$> master d) -> verify_table_exists d t = Ok tt.
Proof.
  intros Ht. unfold verify_table_exists.
  apply table_exists_iff in Ht. by rewrite Ht.
Qed.

End NotFound.


(** ** [get_stats] on a column of NULLs *)

Section Stats.
Import Sqlite Explorer.

(** [n / n] is exactly 1.0. *)
Lemma int_true_div_same (n : Z) :
  0 < n -> PyFloat.int_true_div n n = Ok (S754_finite false 4503599627370496 (-52)).
Proof.
  intros Hn. unfold PyFloat.int_true_div.
  destruct (n =? 0) eqn:Hz; [lia|].
  assert ((n <? 0) = false) as -> by lia.
  rewrite Z.abs_eq by lia.
  destruct n as [|p|p]; try lia. simpl Z.to_pos.
  unfold SFdiv, SFdiv_core_binary. simpl xorb.
  replace (Zdigits2 (Z.pos p) + 0 - (Zdigits2 (Z.pos p) + 0)) with 0 by lia.
  change (fexp PyFloat.prec PyFloat.emax 0) with (-53).
  change (Z.min (-53) (0 - 0)) with (-53).
  change (0 - 0 - -53) with 53.
  cbv iota beta.
  rewrite (surjective_pairing (Z.div_eucl _ _)).
  change (fst (Z.div_eucl ?a ?b)) with (a / b).
  change (snd (Z.div_eucl ?a ?b)) with (a mod b).
  rewrite Z.shiftl_mul_pow2 by lia.
  rewrite (Z.mul_comm (Z.pos p)), Z.div_mul, Z.mod_mul by lia.
  assert (new_location (Z.pos p) 0 = loc_Exact) as ->.
  { unfold new_location. by destruct (Z.even (Z.pos p)). }
  reflexivity.
Qed.

Lemma percent_all (n : Z) : 0 < n -> percent n n = Ok "100.0%".
Proof.
  intros Hn. unfold percent. rewrite int_true_div_same by done. reflexivity.
Qed.

(** The quotient of two ints [0 <= a <= b] is at most 1: the division
    does not overflow, so [a / b] returns. *)
Lemma digits2_pos_le (p : positive) (k : Z) :
  Z.pos p < 2 ^ k -> 0 <= k -> Z.pos (digits2_pos p) <= k.
Proof.
  revert k. induction p as [p IH|p IH|]; intros k Hp Hk; simpl.
  - assert (k = Z.succ (k - 1)) as Hs by lia.
    destruct (Z.eq_dec k 0) as [->|Hne]; [simpl in Hp; lia|].
    rewrite Hs, Z.pow_succ_r in Hp by lia.
    specialize (IH (k - 1)). lia.
  - assert (k = Z.succ (k - 1)) as Hs by lia.
    destruct (Z.eq_dec k 0) as [->|Hne]; [simpl in Hp; lia|].
    rewrite Hs, Z.pow_succ_r in Hp by lia.
    specialize (IH (k - 1)). lia.
  - destruct (Z.eq_dec k 0) as [->|Hne]; [simpl in Hp; lia|]. lia.
Qed.

Lemma Zdigits2_le (m k : Z) : 0 <= m < 2 ^ k -> 0 <= k -> Zdigits2 m <= k.
Proof.
  intros [Hm Hlt] Hk. destruct m as [|p|p]; simpl; [lia| |lia].
  by apply digits2_pos_le.
Qed.

Lemma shr_1_bounds (r : shr_record) :
  0 <= shr_m r -> 0 <= shr_m (shr_1 r) <= shr_m r.
Proof.
  destruct r as [m r s]. simpl. intros Hm.
  destruct m as [|[p|p|]|p]; simpl; lia.
Qed.

Lemma iter_shr_1_bounds (p : positive) (r : shr_record) :
  0 <= shr_m r -> 0 <= shr_m (SpecFloat.iter_pos shr_1 p r) <= shr_m r.
Proof.
  revert r. induction p as [p IH|p IH|]; intros r Hr; simpl.
  - pose proof (shr_1_bounds r Hr) as H1.
    pose proof (IH (shr_1 r) (proj1 H1)) as H2.
    pose proof (IH _ (proj1 H2)) as H3. lia.
  - pose proof (IH r Hr) as H2.
    pose proof (IH _ (proj1 H2)) as H3. lia.
  - by apply shr_1_bounds.
Qed.

Lemma shr_record_of_loc_m (m : Z) (l : location) :
  shr_m (shr_record_of_loc m l) = m.
Proof. by destruct l as [|[]]. Qed.

Lemma shr_bounds (r : shr_record) (e n : Z) :
  0 <= shr_m r ->
  0 <= shr_m (fst (shr r e n)) <= shr_m r /\ snd (shr r e n) = Z.max e (e + n).
Proof.
  intros Hr. destruct n as [|p|p]; simpl; [lia| |lia].
  split; [by apply iter_shr_1_bounds|lia].
Qed.

Lemma round_nearest_even_bounds (m : Z) (l : location) :
  m <= round_nearest_even m l <= m + 1.
Proof.
  destruct l as [|[]]; simpl; try lia. destruct (Z.even m); lia.
Qed.

Lemma binary_round_aux_no_overflow (sx : bool) (mx s : Z) (lx : location) (b : bool) :
  0 <= s <= 1074 -> 0 <= mx <= 2 ^ s ->
  binary_round_aux PyFloat.prec PyFloat.emax sx mx (- s) lx <> S754_infinity b.
Proof.
  intros Hs Hmx. unfold PyFloat.prec, PyFloat.emax, binary_round_aux, shr_fexp.
  set (r0 := shr_record_of_loc mx lx).
  assert (shr_m r0 = mx) as Hr0 by apply shr_record_of_loc_m.
  set (n0 := fexp 53 1024 (Zdigits2 mx + - s) - - s).
  destruct (shr_bounds r0 (- s) n0) as [Hm1 He1]; [lia|].
  destruct (shr r0 (- s) n0) as [mrs1 e1]. simpl in Hm1, He1.
  set (m1 := round_nearest_even (shr_m mrs1) (loc_of_shr_record mrs1)).
  pose proof (round_nearest_even_bounds (shr_m mrs1) (loc_of_shr_record mrs1)) as Hrne.
  fold m1 in Hrne.
  set (r1 := shr_record_of_loc m1 loc_Exact).
  set (n1 := fexp 53 1024 (Zdigits2 m1 + e1) - e1).
  destruct (shr_bounds r1 e1 n1) as [Hm2 He2]; [simpl; lia|].
  destruct (shr r1 e1 n1) as [mrs2 e2]. simpl in Hm2, He2.
  destruct (shr_m mrs2); try discriminate.
  assert (2 ^ s < 2 ^ (s + 1)) as Hpow.
  { rewrite Z.pow_add_r by lia. change (2 ^ 1) with 2.
    assert (0 < 2 ^ s) by (apply Z.pow_pos_nonneg; lia). lia. }
  assert (Zdigits2 mx <= s + 1) as Hd0 by (apply Zdigits2_le; lia).
  assert (Zdigits2 m1 <= s + 2) as Hd1.
  { apply Zdigits2_le; [|lia]. split; [lia|].
    replace (s + 2) with (s + 1 + 1) by lia.
    rewrite (Z.pow_add_r 2 (s + 1) 1) by lia. change (2 ^ 1) with 2. lia. }
  unfold fexp, emin in n0, n1.
  destruct (e2 <=? 1024 - 53) eqn:He; [discriminate|].
  apply Z.leb_gt in He. subst n0 n1. lia.
Qed.

Lemma int_true_div_total (a b : Z) :
  0 <= a <= b -> 0 < b -> exists x, PyFloat.int_true_div a b = Ok x.
Proof.
  intros Ha Hb. unfold PyFloat.int_true_div.
  destruct (b =? 0) eqn:Hz; [lia|].
  destruct (a =? 0) eqn:Hza; [eauto|].
  assert ((a <? 0) = false) as -> by lia.
  assert ((b <? 0) = false) as -> by lia.
  rewrite !Z.abs_eq by lia.
  destruct a as [|p|p]; try lia. destruct b as [|q|q]; try lia. simpl Z.to_pos.
  unfold SFdiv. simpl xorb.
  destruct (SFdiv_core_binary PyFloat.prec PyFloat.emax (Z.pos p) 0 (Z.pos q) 0)
    as [[mz ez] lz] eqn:Hcore.
  unfold SFdiv_core_binary in Hcore.
  set (e' := Z.min (fexp PyFloat.prec PyFloat.emax
                      (Zdigits2 (Z.pos p) + 0 - (Zdigits2 (Z.pos q) + 0))) (0 - 0))
    in Hcore.
  set (m' := match 0 - 0 - e' with
             | 0 => Z.pos p
             | Z.pos _ => Z.shiftl (Z.pos p) (0 - 0 - e')
             | Z.neg _ => 0
             end) in Hcore.
  cbv zeta in Hcore.
  rewrite (surjective_pairing (Z.div_eucl m' (Z.pos q))) in Hcore.
  change (fst (Z.div_eucl m' (Z.pos q))) with (m' / Z.pos q) in Hcore.
  injection Hcore as Hmz Hez _.
  assert (-1074 <= e' <= 0) as He'
    by (unfold e', fexp, emin, PyFloat.prec, PyFloat.emax; lia).
  assert (0 < 2 ^ (- e')) as Hpow by (apply Z.pow_pos_nonneg; lia).
  assert (0 <= m' <= Z.pos p * 2 ^ (- e')) as Hm'.
  { unfold m'. replace (0 - 0 - e') with (- e') by lia.
    destruct (- e') as [|k|k] eqn:Hk; [simpl; lia| |lia].
    rewrite Z.shiftl_mul_pow2 by lia. lia. }
  assert (0 <= mz <= 2 ^ (- e')) as Hmzb.
  { subst mz. split; [apply Z.div_pos; lia|].
    apply Z.div_le_upper_bound; [lia|].
    transitivity (Z.pos p * 2 ^ (- e')); [lia|].
    apply Z.mul_le_mono_nonneg_r; lia. }
  pose proof (binary_round_aux_no_overflow false mz (- e') lz) as Hno.
  replace (- - e') with ez in Hno by lia.
  destruct (binary_round_aux PyFloat.prec PyFloat.emax false mz ez lz)
    as [z|b| |z m e]; eauto.
  exfalso. apply (Hno b); [lia|lia|reflexivity].
Qed.

Lemma percent_total (a b : Z) :
  0 <= a <= b -> 0 < b -> exists text, percent a b = Ok text.
Proof.
  intros Ha Hb. unfold percent.
  destruct (int_true_div_total a b Ha Hb) as [q ->]. simpl.
  unfold PyFloat.mul_int.
  destruct (PyFloat.of_int 100) as [y|e] eqn:Hy; [|vm_compute in Hy; discriminate].
  simpl. eauto.
Qed.

Lemma non_null_length (vs : list Value) : (length (non_null vs) <= length vs)%nat.
Proof. unfold non_null. apply length_filter. Qed.

Lemma column_values_length (d : db) (t c : string) :
  (length (column_values d t c) <= length (table_rows d t))%nat.
Proof.
  unfold column_values. destruct (column_position d t c); simpl; [|lia].
  by rewrite length_fmap.
Qed.

(** The [try] block of the numeric aggregates never lets an exception out. *)
Lemma numeric_stats_total (d : db) (table c : string) :
  exists r, numeric_stats d table c = Ok r.
Proof.
  unfold numeric_stats, execute_numeric, on.
  destruct (fails d (Numeric table c)); [eauto|].
  simpl.
  destruct (is_none (aggregate_of d AVG (column_values d table c))); simpl; [eauto|].
  destruct (aggregate_of d AVG (column_values d table c)); simpl; eauto.
Qed.

Lemma column_stats_total (d : db) (table : string) (col : table_info_row) :
  fails d (CountColumn table (ti_name col)) = false ->
  exists st,
    column_stats d table (Z.of_nat (length (table_rows d table))) col = Ok st.
Proof.
  intros Hok. unfold column_stats, execute_count_column, on. rewrite Hok. simpl.
  set (total := Z.of_nat (length (table_rows d table))).
  set (nn := Z.of_nat (length (non_null (column_values d table (ti_name col))))).
  assert (0 <= nn <= total) as Hnn.
  { unfold nn, total.
    pose proof (non_null_length (column_values d table (ti_name col))).
    pose proof (column_values_length d table (ti_name col)). lia. }
  assert (exists pct,
            (if 0 <? total then percent (total - nn) total else Ok "N/A") = Ok pct)
    as [pct ->].
  { destruct (0 <? total) eqn:Ht; [|eauto]. apply percent_total; lia. }
  simpl. destruct (numeric_stats_total d table (ti_name col)) as [[[[mn mx] avg] sm] ->].
  simpl. eauto.
Qed.

(** [get_stats] returns for a table that exists when the engine answers the
    counting statements. *)
Lemma get_stats_total (d : db) (table : string) :
  table ∈ (m_name <$> master d) ->
  fails d (Count table) = false ->
  (forall c, c ∈ table_info d table ->
             fails d (CountColumn table (ti_name c)) = false) ->
  exists stats, get_stats d table = Ok stats.
Proof.
  intros Ht Hcount Hcols. unfold get_stats.
  rewrite verify_present by done. simpl.
  unfold execute_count, on. rewrite Hcount. simpl.
  apply mapM_total. intros c Hc. apply column_stats_total. by apply Hcols.
Qed.

Lemma non_null_all_none (vs : list Value) :
  Forall (fun v => v = VNone) vs -> non_null vs = [].
Proof.
  unfold non_null. induction 1 as [|v vs -> _ IH]; [reflexivity|].
  by rewrite filter_cons_False.
Qed.

Lemma numeric_stats_all_none (d : db) (table c : string) :
  Forall (fun v => v = VNone) (column_values d table c) ->
  numeric_stats d table c = Ok (VNone, VNone, VNone, VNone).
Proof.
  intros Hnull. unfold numeric_stats, execute_numeric, on.
  destruct (fails d (Numeric table c)); [reflexivity|].
  simpl. unfold aggregate_of. by rewrite non_null_all_none.
Qed.

End Stats.

(** C5: in a table that exists, for a column whose cells are all NULL and on
    which the counting statement succeeds, the statistics of the column are
    computed and say: no non-NULL value, no distinct value, [min], [max],
    [avg] and [sum] all [None]; the share of NULLs is 100.0% when the table
    has a row and N/A when it has none.  They are the entry of that column
    in whatever [get_stats] returns, and [get_stats] does return when the
    table exists and the engine answers the counting statements of the table
    and of each of its columns. *)
Theorem stats_of_all_null_column (d : Sqlite.db) (table : string) (i : nat)
    (col : Sqlite.table_info_row) :
  Sqlite.table_info d table !! i = Some col ->
  Forall (fun v => v = VNone) (Sqlite.column_values d table (Sqlite.ti_name col)) ->
  Sqlite.fails d (Sqlite.CountColumn table (Sqlite.ti_name col)) = false ->
  let total := Z.of_nat (length (Sqlite.table_rows d table)) in
  exists st,
    Explorer.column_stats d table total col = Ok st /\
    (forall stats, Explorer.get_stats d table = Ok stats -> stats !! i = Some st) /\
    (table ∈ (Sqlite.m_name <$> Sqlite.master d) ->
     Sqlite.fails d (Sqlite.Count table) = false ->
     (forall c, c ∈ Sqlite.table_info d table ->
                Sqlite.fails d (Sqlite.CountColumn table (Sqlite.ti_name c)) = false) ->
     exists stats, Explorer.get_stats d table = Ok stats /\ stats !! i = Some st) /\
    Explorer.st_column st = Sqlite.ti_name col /\
    Explorer.st_total_rows st = total /\
    Explorer.st_non_null st = 0 /\
    Explorer.st_distinct st = 0 /\
    Explorer.st_min st = VNone /\
    Explorer.st_max st = VNone /\
    Explorer.st_avg st = VNone /\
    Explorer.st_sum st = VNone /\
    (0 < total -> Explorer.st_null_pct st = "100.0%") /\
    (total = 0 -> Explorer.st_null_pct st = "N/A").
Proof.
  intros Hcol Hnull Hok total.
  assert (exists pct, (if 0 <? total then Explorer.percent (total - 0) total else Ok "N/A")
                      = Ok pct /\
                      (0 < total -> pct = "100.0%") /\ (total = 0 -> pct = "N/A"))
    as (pct & Hpct & Hpos & Hzero).
  { destruct (0 <? total) eqn:Ht.
    - exists "100.0%". rewrite Z.sub_0_r, percent_all by lia.
      split; [done|]. split; [done|lia].
    - exists "N/A". split; [done|]. split; [lia|done]. }
  assert (Explorer.column_stats d table total col =
          Ok {| Explorer.st_column := Sqlite.ti_name col;
                Explorer.st_type := Explorer.declared_type col;
                Explorer.st_total_rows := total;
                Explorer.st_non_null := 0;
                Explorer.st_null_count := total - 0;
                Explorer.st_null_pct := pct;
                Explorer.st_distinct := 0;
                Explorer.st_min := VNone; Explorer.st_max := VNone;
                Explorer.st_avg := VNone; Explorer.st_sum := VNone |}) as Hst.
  { unfold Explorer.column_stats, Sqlite.execute_count_column, Sqlite.on.
    rewrite Hok, non_null_all_none by done. simpl.
    change (Z.of_nat 0) with 0.
    rewrite Hpct. simpl. by rewrite numeric_stats_all_none. }
  match type of Hst with _ = Ok ?r => set (st0 := r) in Hst end.
  assert (forall stats, Explorer.get_stats d table = Ok stats ->
                        stats !! i = Some st0) as Hentry.
  { intros stats Hstats. unfold Explorer.get_stats in Hstats.
    unbind Hstats. unbind Hstats. rename a0 into total'.
    assert (total' = total) as ->.
    { unfold Explorer.engine, Sqlite.execute_count, Sqlite.on in Hstep0.
      destruct (Sqlite.fails d (Sqlite.Count table)); [discriminate|].
      by injection Hstep0 as <-. }
    destruct (mapM_Ok_lookup _ _ _ _ _ Hstats Hcol) as (st & Hi & Hst').
    rewrite Hst in Hst'. injection Hst' as <-. exact Hi. }
  exists st0. split; [exact Hst|].
  split; [exact Hentry|].
  split; [|subst st0; by repeat split].
  intros Ht Hcount Hcols.
  destruct (get_stats_total d table Ht Hcount Hcols) as [stats Hstats].
  exists stats. split; [exact Hstats|]. by apply Hentry.
Qed.

(** ** [get_size]: the estimate of a table *)

Lemma mapM_Ok_Forall2 {A B} (f : A -> result B) (l : list A) (bs : list B) :
  Py.mapM f l = Ok bs -> Forall2 (fun a b => f a = Ok b) l bs.
Proof.
  revert bs. induction l as [|a l IH]; simpl; intros bs Hm.
  - injection Hm as <-. constructor.
  - unbind Hm. unbind Hm. injection Hm as <-. constructor; eauto.
Qed.

Section Size.
Context `{Runtime}.
Import Sqlite Explorer.

Lemma row_size_sum (row : Row) : row_size row = text_length row.
Proof.
  unfold row_size, text_length, non_null.
  assert (forall total,
            foldl (fun total v => total + (if is_none v then 0 else Py.len (py_str v)))
                  total row
            = total + foldr Z.add 0
                        ((fun v => Py.len (py_str v)) <$>
                         filter (fun v => is_none v = false) row))
    as Hgen; [|by rewrite Hgen].
  induction row as [|v row IH]; intros total; simpl; [lia|].
  rewrite IH. destruct (is_none v) eqn:Hv.
  - rewrite filter_cons_False by congruence. by rewrite Z.add_0_r.
  - rewrite filter_cons_True by done. simpl. by rewrite Z.add_assoc.
Qed.

End Size.

(** C1, as the code has it: the report of [get_size] has one entry per user
    table, in the order of [get_tables], none left out.  When one of the two
    statements of the sampling fails, the entry has estimate 0 and display
    N/A.  When they succeed and the row count is not positive or there is no
    sample row, the entry has estimate 0 and display 0 B.  Otherwise the
    estimate is the sum of the lengths of the texts of the non-NULL cells of
    the sample row times the row count of the table. *)
Theorem size_estimate_of_each_table `{Runtime} (d : Sqlite.db)
    (report : Explorer.size_report) :
  Explorer.get_size d = Ok report ->
  Forall2
    (fun tbl entry =>
       let name := Explorer.t_name tbl in
       let failed :=
         Sqlite.execute_sum_length d name = None \/ Sqlite.execute_sample d name = None in
       Explorer.ts_table entry = name /\
       Explorer.ts_rows entry = Explorer.t_row_count tbl /\
       (failed ->
          Explorer.ts_estimated_data_size entry = 0 /\
          Explorer.ts_estimated_data_size_display entry = "N/A") /\
       (~ failed ->
          Explorer.t_row_count tbl <= 0 \/
          Sqlite.execute_sample d name = Some None \/
          Sqlite.execute_sample d name = Some (Some []) ->
          Explorer.ts_estimated_data_size entry = 0 /\
          Explorer.ts_estimated_data_size_display entry = "0 B") /\
       (forall sample,
          ~ failed -> Sqlite.execute_sample d name = Some (Some sample) ->
          sample <> [] -> 0 < Explorer.t_row_count tbl ->
          Explorer.ts_estimated_data_size entry
          = text_length sample * Explorer.t_row_count tbl /\
          Explorer._format_size (Explorer.ts_estimated_data_size entry)
          = Ok (Explorer.ts_estimated_data_size_display entry)))
    (Explorer.get_tables d) (Explorer.sz_tables report).
Proof.
  intros Hsize. unfold Explorer.get_size in Hsize.
  unbind Hsize. rename a into table_sizes.
  do 4 unbind Hsize. injection Hsize as <-. simpl.
  apply mapM_Ok_Forall2 in Hstep.
  eapply Forall2_impl; [exact Hstep|].
  intros tbl entry Hentry. unfold Explorer.table_size_of in Hentry.
  destruct (Sqlite.execute_sum_length d (Explorer.t_name tbl)) as [[]|] eqn:Hsum.
  2:{ injection Hentry as <-. simpl.
      split; [done|]. split; [done|]. split; [done|]. split.
      - intros Hnot. exfalso. apply Hnot. by left.
      - intros sample Hnot. exfalso. apply Hnot. by left. }
  destruct (Sqlite.execute_sample d (Explorer.t_name tbl)) as [sample|] eqn:Hsample.
  2:{ injection Hentry as <-. simpl.
      split; [done|]. split; [done|]. split; [done|]. split.
      - intros Hnot. exfalso. apply Hnot. by right.
      - intros sample Hnot. exfalso. apply Hnot. by right. }
  unbind_in Hentry as shown Hshown. injection Hentry as <-. simpl.
  split; [done|]. split; [done|]. split; [|split].
  - intros [Hf|Hf]; discriminate.
  - intros _ Hzero.
    assert (Explorer.estimate tbl sample = 0) as Hest.
    { unfold Explorer.estimate. destruct Hzero as [Hrc|[Hs|Hs]].
      - destruct sample as [[|v vs]|]; try done.
        destruct (0 <? Explorer.t_row_count tbl) eqn:Hpos; [lia|done].
      - by injection Hs as ->.
      - by injection Hs as ->. }
    rewrite Hest in *. split; [done|]. by injection Hshown as <-.
  - intros row _ [= ->] Hne Hpos. split; [|done].
    unfold Explorer.estimate. destruct row as [|v vs]; [done|].
    assert ((0 <? Explorer.t_row_count tbl) = true) as -> by lia.
    by rewrite row_size_sum.
Qed.

(** ** [diff] *)

Section Diff.
Import Sqlite Explorer.

Lemma sorted_elem (s : gset string) (x : string) : x ∈ sorted s <-> x ∈ s.
Proof.
  unfold sorted. rewrite (merge_sort_Permutation String.le). apply elem_of_elements.
Qed.


Lemma sorted_empty : sorted ∅ = [].
Proof. unfold sorted. by rewrite elements_empty. Qed.

Lemma sorted_nil_iff (s : gset string) : sorted s = [] <-> s = ∅.
Proof.
  split; [|intros ->; apply sorted_empty].
  intros Hs. apply set_eq. intros x. rewrite <- sorted_elem, Hs.
  rewrite elem_of_nil. set_solver.
Qed.


















End Diff.



(** ** [format_table]: widths and truncation *)

Section Strings.

Lemma append_empty (s : string) : s +:+ EmptyString = s.
Proof. induction s as [|c s IH]; simpl; [done|]. unfold String.app in *. simpl. by rewrite IH. Qed.

Lemma length_append (s t : string) :
  String.length (s +:+ t) = (String.length s + String.length t)%nat.
Proof. induction s as [|c s IH]; simpl; [done|]. by rewrite <- IH. Qed.

Lemma length_take (n : nat) (s : string) :
  (n <= String.length s)%nat -> String.length (Py.take n s) = n.
Proof.
  revert s. induction n as [|n IH]; intros [|c s]; simpl; try lia; intros Hn.
  rewrite IH; lia.
Qed.

Lemma len_append (s t : string) : Py.len (s +:+ t) = Py.len s + Py.len t.
Proof. unfold Py.len. rewrite length_append. lia. Qed.

Lemma ljust_full (s : string) (w : Z) : w <= Py.len s -> Py.ljust s w = s.
Proof.
  intros Hw. unfold Py.ljust. replace (Z.to_nat (w - Py.len s)) with O by lia.
  apply append_empty.
Qed.

Lemma rjust_full (s : string) (w : Z) : w <= Py.len s -> Py.rjust s w = s.
Proof.
  intros Hw. unfold Py.rjust. by replace (Z.to_nat (w - Py.len s)) with O by lia.
Qed.

End Strings.

Section Widths.
Context `{Runtime}.
Import TableFormatter.

Lemma widen_length (i : nat) (row : list string) (ws : list Z) :
  length (widen i row ws) = length ws.
Proof.
  revert i ws. induction row as [|val row IH]; simpl; intros i ws; [done|].
  rewrite IH. destruct (i <? length ws)%nat; [apply length_insert|done].
Qed.

Lemma widen_lookup (i : nat) (row : list string) (ws : list Z) (j : nat) (w : Z) :
  ws !! j = Some w ->
  widen i row ws !! j =
  Some (match cell_from i row j with
        | Some s => Z.max w (Py.len s)
        | None => w
        end).
Proof.
  revert i ws w. induction row as [|val row IH]; simpl; intros i ws w Hw.
  - unfold cell_from. destruct (i <=? j)%nat; by rewrite ?lookup_nil.
  - unfold cell_from in *.
    destruct (decide (j = i)) as [->|Hne].
    + assert ((i <? length ws)%nat = true) as ->.
      { apply Nat.ltb_lt. by eapply lookup_lt_Some. }
      rewrite (IH _ _ (Z.max w (Py.len val))).
      2:{ rewrite list_lookup_insert_eq by (by eapply lookup_lt_Some).
          by rewrite (list_lookup_total_correct _ _ _ Hw). }
      assert ((S i <=? i)%nat = false) as -> by (apply Nat.leb_gt; lia).
      rewrite Nat.leb_refl, Nat.sub_diag. done.
    + rewrite (IH _ _ w).
      2:{ destruct (i <? length ws)%nat; [|done]. by rewrite list_lookup_insert_ne. }
      destruct (S i <=? j)%nat eqn:Hle.
      * apply Nat.leb_le in Hle.
        assert ((i <=? j)%nat = true) as -> by (apply Nat.leb_le; lia).
        replace (j - i)%nat with (S (j - S i)) by lia. done.
      * apply Nat.leb_gt in Hle.
        assert ((i <=? j)%nat = false) as -> by (apply Nat.leb_gt; lia). done.
Qed.

Lemma widths_lookup (rows : list (list string)) (ws : list Z) (j : nat) (w : Z) :
  ws !! j = Some w ->
  exists w0, foldl (fun ws row => widen 0 row ws) ws rows !! j = Some w0 /\
             widest w rows j w0.
Proof.
  revert ws w. induction rows as [|row rows IH]; simpl; intros ws w Hw.
  - exists w. split; [done|]. split; [lia|]. split; [|by left].
    intros row s Hrow. by apply elem_of_nil in Hrow.
  - pose proof (widen_lookup 0 row ws j w Hw) as Hrow.
    unfold cell_from in Hrow. simpl in Hrow. rewrite Nat.sub_0_r in Hrow.
    destruct (IH _ _ Hrow) as (w0 & Hw0 & Hle & Hall & Hsome).
    exists w0. split; [done|].
    destruct (row !! j) as [s|] eqn:Hs.
    + split; [lia|]. split.
      * intros row' s' Hin Hs'. apply elem_of_cons in Hin as [->|Hin]; [|eauto].
        rewrite Hs in Hs'. injection Hs' as <-. lia.
      * destruct Hsome as [->|(row' & s' & Hin & Hs' & ->)].
        -- destruct (Z.max_spec w (Py.len s)) as [[_ ->]|[_ ->]].
           ++ right. exists row, s. split; [by left|done].
           ++ by left.
        -- right. exists row', s'. split; [by right|done].
    + split; [lia|]. split.
      * intros row' s' Hin Hs'. apply elem_of_cons in Hin as [->|Hin]; [|eauto].
        congruence.
      * destruct Hsome as [->|(row' & s' & Hin & Hs' & ->)]; [by left|].
        right. exists row', s'. split; [by right|done].
Qed.

Lemma column_widths_length (headers : list string) (str_rows : list (list string))
    (max_width : Z) :
  length (column_widths headers str_rows max_width) = length headers.
Proof.
  unfold column_widths, natural_widths. rewrite length_fmap.
  assert (forall ws, length (foldl (fun ws row => widen 0 row ws) ws str_rows) = length ws)
    as Hgen; [|by rewrite Hgen, length_fmap].
  induction str_rows as [|row rows IH]; simpl; intros ws; [done|].
  by rewrite IH, widen_length.
Qed.

Lemma truncate_long (s : string) (width : Z) :
  3 <= width -> width < Py.len s ->
  truncate s width = Py.take (Z.to_nat (width - 3)) s +:+ "..." /\
  Py.len (truncate s width) = width.
Proof.
  intros Hw Hlong. unfold truncate.
  assert ((Py.len s <=? width) = false) as -> by lia.
  unfold Py.slice_to. assert ((width - 3 <? 0) = false) as -> by lia.
  split; [done|].
  rewrite len_append. unfold Py.len in *. rewrite length_take by lia.
  simpl. lia.
Qed.

End Widths.

(** C7, as the code has it.  For every header list, rows and maximum width:
    there is one width per header; the width of a column is the largest of
    the length of its header and of the lengths of the stringified cells of
    that column, capped at the maximum width.  When the maximum width is at
    least 3, a stringified cell of a column that is longer than the maximum
    width is rendered as its first width-3 characters followed by three
    dots, which makes exactly width characters; so a value of 100 characters
    under a maximum width of 20 gives a cell of 20 characters that ends in
    three dots. *)
Theorem column_width_and_truncation `{Runtime} (headers : list string)
    (rows : list Row) (max_width : Z) :
  let str_rows := (fun row : Row => TableFormatter.stringify <$> row) <$> rows in
  let col_widths := TableFormatter.column_widths headers str_rows max_width in
  length col_widths = length headers /\
  (forall i h, headers !! i = Some h ->
     exists w0,
       col_widths !! i = Some (Z.min w0 max_width) /\
       Py.len h <= w0 /\
       (forall row s, row ∈ str_rows -> row !! i = Some s -> Py.len s <= w0) /\
       (w0 = Py.len h \/
        exists row s, row ∈ str_rows /\ row !! i = Some s /\ w0 = Py.len s)) /\
  (3 <= max_width ->
   forall row s i,
     row ∈ str_rows -> row !! i = Some s -> (i < length headers)%nat ->
     max_width < Py.len s ->
     col_widths !! i = Some max_width /\
     imap (fun j w => TableFormatter.render_cell row j w) col_widths !! i
     = Some (Py.take (Z.to_nat (max_width - 3)) s +:+ "...") /\
     Py.len (Py.take (Z.to_nat (max_width - 3)) s +:+ "...") = max_width) /\
  (let value := Py.repeat_char "A" 100 in
   TableFormatter.render_cell [value] 0 20 = "AAAAAAAAAAAAAAAAA..." /\
   Py.len (TableFormatter.render_cell [value] 0 20) = 20 /\
   TableFormatter.format_table ["Value"] [[VStr value]] 20 None
   = Py.join (Py.chr Py.newline)
       ["+----------------------+"; "| Value                |";
        "+----------------------+"; "| AAAAAAAAAAAAAAAAA... |";
        "+----------------------+"; "(1 row)"]).
Proof.
  intros str_rows col_widths.
  assert (forall i h, headers !! i = Some h ->
            exists w0,
              col_widths !! i = Some (Z.min w0 max_width) /\
              widest (Py.len h) str_rows i w0) as Hwidth.
  { intros i h Hh. unfold col_widths, TableFormatter.column_widths,
      TableFormatter.natural_widths.
    destruct (widths_lookup str_rows (Py.len <$> headers) i (Py.len h)) as (w0 & Hw0 & Hw).
    { by rewrite list_lookup_fmap, Hh. }
    exists w0. split; [|done]. by rewrite list_lookup_fmap, Hw0. }
  split; [apply column_widths_length|]. split; [|split].
  - intros i h Hh. destruct (Hwidth i h Hh) as (w0 & Hw0 & Hle & Hall & Hsome). eauto.
  - intros Hmax row s i Hrow Hs Hi Hlong.
    destruct (lookup_lt_is_Some_2 headers i Hi) as [h Hh].
    destruct (Hwidth i h Hh) as (w0 & Hw0 & Hle & Hall & Hsome).
    assert (Z.min w0 max_width = max_width) as Hcap.
    { specialize (Hall row s Hrow Hs). lia. }
    rewrite Hcap in Hw0.
    destruct (truncate_long s max_width Hmax Hlong) as [Htr Hlen].
    split; [done|]. split; [|by rewrite <- Htr].
    rewrite list_lookup_imap, Hw0. simpl. unfold TableFormatter.render_cell.
    rewrite Hs. rewrite <- Htr.
    destruct (float_parses s); [by rewrite rjust_full by lia|by rewrite ljust_full by lia].
  - split; [|split].
    + simpl. unfold TableFormatter.render_cell. simpl.
      by destruct (float_parses _).
    + simpl. unfold TableFormatter.render_cell. simpl.
      by destruct (float_parses _).
    + vm_compute.
      match goal with
      | |- context [match ?b with true => _ | false => _ end] => destruct b
      end; reflexivity.
Qed.

(** ** [format_markdown]: the rows of the caller *)

Section Markdown.
Context `{Runtime}.
Import TableFormatter.

Lemma append_other (h : store) (r l : ref) (v : Value) :
  l <> r -> append h r v !! l = h !! l.
Proof. intros Hne. unfold append. by apply lookup_insert_ne. Qed.

Lemma read_append (h : store) (r : ref) (v : Value) :
  read (append h r v) r = read h r ++ [v].
Proof. unfold append, read at 1. by rewrite lookup_insert_eq. Qed.

Lemma read_other (h h' : store) (l : ref) : h' !! l = h !! l -> read h' l = read h l.
Proof. unfold read. by intros ->. Qed.

(** Filling a list with the texts of the cells touches this list only. *)
Lemma fill_row (vals : Row) (h : store) (r : ref) :
  let h' := foldl (fun h val => append h r (VStr (stringify_md val))) h vals in
  (forall l, l <> r -> h' !! l = h !! l) /\
  read h' r = read h r ++ ((fun val => VStr (stringify_md val)) <$> vals) /\
  (r ∈ dom h -> r ∈ dom h').
Proof.
  revert h. induction vals as [|val vals IH]; simpl; intros h.
  - split; [done|]. split; [by rewrite app_nil_r|done].
  - destruct (IH (append h r (VStr (stringify_md val)))) as (Hframe & Hread & Hdom).
    split; [|split].
    + intros l Hl. rewrite Hframe by done. by apply append_other.
    + rewrite Hread, read_append, <- app_assoc. done.
    + intros Hr. apply Hdom. unfold append. rewrite dom_insert_L.
      apply elem_of_union. by right.
Qed.

Lemma stringify_row_spec (row : ref) (h : store) (r : ref) (h' : store) :
  stringify_row row h = (r, h') ->
  (r ∉ dom h) /\ r ∈ dom h' /\
  (forall l, l <> r -> h' !! l = h !! l) /\
  Forall is_str (read h' r).
Proof.
  unfold stringify_row, new_list. intros [= <- <-].
  set (r := fresh (dom h)).
  assert (r ∉ dom h) as Hfresh by apply is_fresh.
  destruct (fill_row (read h row) (<[r := []]> h) r) as (Hframe & Hread & Hdom).
  split; [done|]. split; [|split].
  - apply Hdom. rewrite dom_insert_L. apply elem_of_union. left.
    by apply elem_of_singleton.
  - intros l Hl. rewrite Hframe by done. by apply lookup_insert_ne.
  - rewrite Hread. unfold read at 1. rewrite lookup_insert_eq. simpl.
    apply Forall_fmap, Forall_forall. by intros.
Qed.

Lemma stringify_rows_spec (rows : list ref) (h : store) (rs : list ref) (h' : store) :
  stringify_rows rows h = (rs, h') ->
  length rs = length rows /\
  (forall l, l ∈ dom h -> h' !! l = h !! l) /\
  (forall l, l ∈ dom h -> l ∈ dom h') /\
  Forall (fun r => (r ∉ dom h) /\ r ∈ dom h' /\ Forall is_str (read h' r)) rs.
Proof.
  revert h rs h'. induction rows as [|row rows IH]; intros h rs h' Hs;
    cbn [stringify_rows] in Hs.
  - injection Hs as <- <-. split; [done|]. split; [done|]. split; [done|]. constructor.
  - destruct (stringify_row row h) as [r h1] eqn:Hrow.
    apply stringify_row_spec in Hrow as (Hfresh & Hr & Hframe1 & Hstr).
    destruct (stringify_rows rows h1) as [rs' h2] eqn:Hrest.
    injection Hs as <- <-.
    apply IH in Hrest as (Hlen & Hframe2 & Hdom2 & Hrs).
    assert (forall l, l ∈ dom h -> l ∈ dom h1) as Hdom1.
    { intros l Hl. apply elem_of_dom. rewrite Hframe1; [by apply elem_of_dom|].
      intros ->. contradiction. }
    split; [simpl; by f_equal|]. split; [|split].
    + intros l Hl. rewrite Hframe2 by auto. apply Hframe1. intros ->. contradiction.
    + auto.
    + constructor.
      * split; [done|]. split; [auto|].
        by rewrite (read_other h1 h2 r (Hframe2 r Hr)).
      * eapply Forall_impl; [exact Hrs|]. intros r' (Hr' & ? & ?).
        split; [|done]. intros Hin. apply Hr'. auto.
Qed.

Lemma pad_turns_spec (turns n : nat) (row : ref) (h : store) :
  let h' := pad_turns turns n row h in
  (forall l, l <> row -> h' !! l = h !! l) /\
  (Forall is_str (read h row) -> Forall is_str (read h' row)) /\
  (length (read h row) <= length (read h' row))%nat /\
  (n <= turns + length (read h row) -> n <= length (read h' row))%nat.
Proof.
  revert h. induction turns as [|turns IH]; simpl; intros h.
  - split; [done|]. split; [done|]. split; lia.
  - destruct (length (read h row) <? n)%nat eqn:Hshort.
    + destruct (IH (append h row (VStr EmptyString))) as (Hframe & Hstr & Hmono & Hfull).
      rewrite read_append in *. rewrite length_app in *. simpl in *.
      split; [|split; [|split]].
      * intros l Hl. rewrite Hframe by done. by apply append_other.
      * intros Hs. apply Hstr. apply Forall_app. split; [done|]. by repeat constructor.
      * lia.
      * lia.
    + apply Nat.ltb_ge in Hshort. split; [done|]. split; [done|]. split; lia.
Qed.

Lemma join_cells_str (sep : string) (cells : list Value) :
  Forall is_str cells -> exists text, join_cells sep cells = Ok text.
Proof.
  intros Hstr. unfold join_cells.
  destruct (mapM_total (fun v => match v with VStr s => Ok s | _ => Raise Py.TypeError end)
              cells) as [texts ->].
  - intros v Hv. rewrite Forall_forall in Hstr. specialize (Hstr v Hv).
    destruct v; try done. eauto.
  - simpl. eauto.
Qed.

Lemma render_rows_spec (n : nat) (rs : list ref) (lines : list string) (h : store) :
  Forall (fun r => Forall is_str (read h r)) rs ->
  exists lines' h',
    render_rows n rs lines h = (Ok lines', h') /\
    (forall l, l ∉ rs -> h' !! l = h !! l) /\
    Forall (fun r => n <= length (read h' r))%nat rs.
Proof.
  revert lines h. induction rs as [|r rs IH]; simpl; intros lines h Hstr.
  - exists lines, h. split; [done|]. split; [done|]. constructor.
  - apply Forall_cons in Hstr as [Hr Hrs].
    destruct (pad_turns_spec n n r h) as (Hframe & Hkeep & Hmono & Hfull).
    fold (pad n r h) in *. set (h1 := pad n r h) in *.
    destruct (join_cells_str " | " (read h1 r) (Hkeep Hr)) as [text ->].
    assert (Forall (fun r' => Forall is_str (read h1 r')) rs) as Hrs1.
    { eapply Forall_impl; [exact Hrs|]. intros r' Hr'. simpl in Hr'.
      destruct (decide (r' = r)) as [->|Hne]; [auto|].
      by rewrite (read_other h h1 r' (Hframe r' Hne)). }
    destruct (IH (lines ++ ["| " +:+ text +:+ " |"]) h1 Hrs1) as (lines' & h' & -> & Hframe' & Hlen).
    exists lines', h'. split; [done|]. split.
    + intros l Hl. apply not_elem_of_cons in Hl as [Hne Hl].
      rewrite Hframe' by done. auto.
    + constructor; [|done].
      destruct (decide (r ∈ rs)) as [Hin|Hout].
      * rewrite Forall_forall in Hlen. auto.
      * rewrite (read_other h1 h' r (Hframe' r Hout)). apply Hfull. lia.
Qed.

End Markdown.

(** C10, as the code has it: [format_markdown] returns a text and leaves
    every list that existed before the call as it was, the rows of the
    caller among them: a row of the caller that is shorter than the headers
    stays shorter.  The cells are appended to the lists built by the
    function from the stringified values, one new list per row, and each of
    these ends with at least as many cells as there are headers. *)
Theorem format_markdown_pads_its_own_rows `{Runtime} (headers : list string)
    (rows : list nat) (h : gmap nat (list Value)) :
  exists text h',
    TableFormatter.format_markdown headers rows h = (Ok text, h') /\
    (forall r, r ∈ dom h -> h' !! r = h !! r) /\
    (headers <> [] ->
     let str_rows := (TableFormatter.stringify_rows rows h).1 in
     length str_rows = length rows /\
     Forall (fun r => (r ∉ dom h) /\
                      (length headers <= length (TableFormatter.read h' r))%nat)
            str_rows).
Proof.
  unfold TableFormatter.format_markdown.
  destruct headers as [|hd headers].
  { exists "(no columns)", h. split; [done|]. split; [done|]. by intros []. }
  set (n := length (hd :: headers)).
  destruct (TableFormatter.stringify_rows rows h) as [rs h1] eqn:Hrows.
  apply stringify_rows_spec in Hrows as (Hlen & Hframe & Hdom & Hrs).
  destruct (render_rows_spec n rs
              ["| " +:+ Py.join " | " (hd :: headers) +:+ " |";
               "| " +:+ Py.join " | " ((fun _ => "---") <$> (hd :: headers)) +:+ " |"] h1)
    as (lines & h2 & Hrender & Hframe2 & Hpadded).
  { eapply Forall_impl; [exact Hrs|]. by intros r (_ & _ & ?). }
  rewrite Hrender. simpl. eexists _, h2. split; [reflexivity|]. split.
  - intros r Hr. rewrite Hframe2; [by apply Hframe|].
    intros Hin. rewrite Forall_forall in Hrs. by destruct (Hrs r Hin) as (? & _).
  - intros _. split; [done|].
    rewrite Forall_forall in *. intros r Hr. split; [by destruct (Hrs r Hr)|auto].
Qed.

(** ** [format_table]: floats *)

Section Decimal.
Import PyFloat.













(** [10^(k+1) = 10 * 10^k] *)
Lemma pow10_step (k : Z) :
  pow10_up (k + 1) * pow10_down k = 10 * (pow10_up k * pow10_down (k + 1)).
Proof.
  unfold pow10_up, pow10_down. destruct (Z.le_gt_cases 0 k).
  - rewrite (Z.max_l (k + 1) 0), (Z.max_l k 0), (Z.max_r (- k) 0),
      (Z.max_r (- (k + 1)) 0) by lia.
    change (10 ^ 0) with 1. rewrite Z.pow_add_r by lia. change (10 ^ 1) with 10. lia.
  - rewrite (Z.max_r (k + 1) 0), (Z.max_r k 0), (Z.max_l (- k) 0),
      (Z.max_l (- (k + 1)) 0) by lia.
    change (10 ^ 0) with 1. replace (- k) with (- (k + 1) + 1) by lia.
    rewrite Z.pow_add_r by lia. change (10 ^ 1) with 10. lia.
Qed.


End Decimal.


(** ** The properties on the sample database *)

Section Sample.
Import Sqlite Explorer.




Lemma sample_has_no_empty_name : EmptyString ∉ (m_name <$> master Demo.database).
Proof. apply (bool_decide_unpack _). vm_compute. exact I. Qed.

Lemma sample_nicknames_null :
  Forall (fun v => v = VNone) (column_values Demo.database "users" "nickname").
Proof. vm_compute. repeat constructor. Qed.

End Sample.

(** C1 on the sample: the report has an entry for each of the two tables. *)
Lemma size_estimate_witness :
  exists report,
    Explorer.get_size (H := CPython.runtime) Demo.database = Ok report /\
    length (Explorer.sz_tables report) = length (Explorer.get_tables Demo.database).
Proof.
  eexists. split.
  - vm_compute. reflexivity.
  - symmetry. eapply Forall2_length.
    apply (size_estimate_of_each_table (H := CPython.runtime) Demo.database).
    vm_compute. reflexivity.
Defined.

(** C1 as stated fails on a table without rows: the display is 0 B. *)
Lemma empty_table_display_is_zero_bytes :
  exists report entry,
    Explorer.get_size (H := CPython.runtime) Demo.database = Ok report /\
    Explorer.sz_tables report !! 0%nat = Some entry /\
    Explorer.ts_table entry = "empty" /\
    Explorer.ts_rows entry = 0 /\
    Explorer.ts_estimated_data_size entry = 0 /\
    Explorer.ts_estimated_data_size_display entry = "0 B" /\
    Explorer.ts_estimated_data_size_display entry <> "N/A".
Proof.
  eexists _, _. split; [vm_compute; reflexivity|].
  split; [reflexivity|]. repeat split. discriminate.
Qed.


(** C5 on the sample: the nicknames are all NULL, and [get_stats] returns
    their statistics as its fifth entry. *)
Lemma all_null_stats_witness :
  exists st stats,
    Explorer.column_stats Demo.database "users" 3 (Demo.col 4 "nickname" "TEXT") = Ok st /\
    Explorer.get_stats Demo.database "users" = Ok stats /\
    stats !! 4%nat = Some st /\
    Explorer.st_non_null st = 0 /\ Explorer.st_distinct st = 0 /\
    Explorer.st_null_pct st = "100.0%".
Proof.
  destruct (stats_of_all_null_column Demo.database "users" 4 (Demo.col 4 "nickname" "TEXT"))
    as (st & Hst & _ & Hreturns & _ & _ & Hnn & Hd & _ & _ & _ & _ & Hpct & _).
  - reflexivity.
  - exact sample_nicknames_null.
  - reflexivity.
  - destruct Hreturns as (stats & Hstats & Hentry).
    + simpl. left.
    + reflexivity.
    + intros c _. reflexivity.
    + exists st, stats. split; [exact Hst|]. split; [exact Hstats|].
      split; [exact Hentry|]. split; [exact Hnn|]. split; [exact Hd|].
      apply Hpct. vm_compute. reflexivity.
Defined.


(** C7 on the scenario of the specification. *)
Lemma truncation_witness :
  3 <= 20 /\
  imap (fun j w => TableFormatter.render_cell (H := CPython.runtime)
                     [Py.repeat_char "A" 100] j w)
       (TableFormatter.column_widths ["Value"] [[Py.repeat_char "A" 100]] 20) !! 0%nat
  = Some "AAAAAAAAAAAAAAAAA...".
Proof.
  split; [lia|].
  pose proof (column_width_and_truncation (H := CPython.runtime)
                ["Value"] [[VStr (Py.repeat_char "A" 100)]] 20) as (_ & _ & Hcut & _).
  destruct (Hcut ltac:(lia) [Py.repeat_char "A" 100] (Py.repeat_char "A" 100) 0%nat)
    as (_ & Hcell & _).
  - apply list_elem_of_In. left. reflexivity.
  - reflexivity.
  - simpl. lia.
  - vm_compute. reflexivity.
  - exact Hcell.
Defined.

(** C7 as stated fails for a maximum width below 3: the cell is longer than
    the value it shortens. *)
Lemma truncation_below_three :
  TableFormatter.column_widths ["h"] [["abcdef"]] 2 = [2] /\
  TableFormatter.render_cell (H := CPython.runtime) ["abcdef"] 0 2 = "abcde..." /\
  TableFormatter.render_cell (H := CPython.runtime) ["abcdef"] 0 2
  <> Py.take (Z.to_nat (2 - 3)) "abcdef" +:+ "..." /\
  Py.len (TableFormatter.render_cell (H := CPython.runtime) ["abcdef"] 0 2) = 8.
Proof.
  split; [vm_compute; reflexivity|]. split; [vm_compute; reflexivity|].
  split; [|vm_compute; reflexivity].
  vm_compute. discriminate.
Qed.



(** C10 on a row of one cell under two headers. *)
Lemma format_markdown_witness :
  exists text h',
    TableFormatter.format_markdown (H := CPython.runtime) ["a"; "b"] [1%nat]
      Demo.short_row_store = (Ok text, h') /\
    h' !! 1%nat = Some [VInt 1].
Proof.
  destruct (format_markdown_pads_its_own_rows (H := CPython.runtime) ["a"; "b"] [1%nat]
              Demo.short_row_store) as (text & h' & Hcall & Hframe & _).
  exists text, h'. split; [exact Hcall|].
  rewrite Hframe; [reflexivity|].
  apply (bool_decide_unpack _). vm_compute. exact I.
Defined.

(** C10 as stated fails: after the call the row of the caller still has one
    cell, under two headers; the empty cell is in the text only. *)
Lemma caller_row_stays_short :
  exists h',
    TableFormatter.format_markdown (H := CPython.runtime) ["a"; "b"] [1%nat]
      Demo.short_row_store
    = (Ok (Py.join (Py.chr Py.newline) ["| a | b |"; "| --- | --- |"; "| 1 |  |"]), h') /\
    TableFormatter.read h' 1 = [VInt 1] /\
    ~ (length ["a"; "b"] <= length (TableFormatter.read h' 1))%nat.
Proof.
  eexists. split; [vm_compute; reflexivity|].
  split; [vm_compute; reflexivity|].
  vm_compute. lia.
Qed.

(** * The rest of the program *)

(** ** [search]: the columns that are searched *)

Section TextLike.
Context `{Runtime}.
Import Sqlite Explorer.

Lemma str_in_elem (s : string) (l : list string) :
  Py.str_in s l = true <-> s ∈ l.
Proof.
  unfold Py.str_in. rewrite existsb_exists. split.
  - intros (x & Hx & Heq). apply String.eqb_eq in Heq as ->. by apply list_elem_of_In.
  - intros Hs. exists s. split; [by apply list_elem_of_In|apply String.eqb_refl].
Qed.

(** [search] looks into every column whose declared type, in upper case,
    does not start with INT, REAL, FLOAT, DOUBLE, NUMERIC, BLOB or BOOLEAN:
    the list of text types changes nothing. *)
Theorem searched_columns_by_type_prefix (col : table_info_row) :
  text_like col = negb (Py.startswith_any (str_upper (ti_type col)) other_prefixes).
Proof.
  unfold text_like. destruct (Py.str_in _ text_types) eqn:Hin; [|done].
  apply str_in_elem in Hin. unfold text_types in Hin.
  repeat (apply elem_of_cons in Hin as [->|Hin]; [reflexivity|]).
  by apply elem_of_nil in Hin.
Qed.
End TextLike.

(** ** [format_table]: a cell stays on its line *)

Section Newline.
Context `{Runtime}.
Import TableFormatter.


Lemma has_char_append c s t : has_char c (s +:+ t) = has_char c s || has_char c t.
Proof. induction s as [|a s IH]; simpl; [done|]. by rewrite IH, orb_assoc. Qed.

Lemma has_char_replace_same c by_ s :
  has_char c by_ = false -> has_char c (Py.replace c by_ s) = false.
Proof.
  intros Hby. induction s as [|a s IH]; simpl; [done|].
  destruct (Ascii.eqb a c) eqn:Ha.
  - by rewrite has_char_append, Hby, IH.
  - simpl. by rewrite Ha, IH.
Qed.

Lemma has_char_replace_other c c' by_ s :
  has_char c by_ = false -> has_char c s = false ->
  has_char c (Py.replace c' by_ s) = false.
Proof.
  intros Hby. induction s as [|a s IH]; simpl; [done|].
  intros Hs. apply orb_false_iff in Hs as [Ha Hs].
  destruct (Ascii.eqb a c').
  - by rewrite has_char_append, Hby, IH.
  - simpl. by rewrite Ha, IH.
Qed.

Lemma has_char_take c n s : has_char c s = false -> has_char c (Py.take n s) = false.
Proof.
  revert n. induction s as [|a s IH]; intros [|n]; simpl; try done.
  intros Hs. apply orb_false_iff in Hs as [-> Hs]. simpl. auto.
Qed.

Lemma has_char_drop c n s : has_char c s = false -> has_char c (PyFloat.drop n s) = false.
Proof.
  revert n. induction s as [|a s IH]; intros [|n]; simpl; try done.
  intros Hs. apply orb_false_iff in Hs as [_ Hs]. auto.
Qed.

Lemma has_char_strip_zeros c s :
  has_char c s = false -> has_char c (PyFloat.strip_zeros s) = false.
Proof.
  induction s as [|a s IH]; simpl; [done|].
  intros Hs. apply orb_false_iff in Hs as [Ha Hs]. specialize (IH Hs).
  destruct (PyFloat.strip_zeros s) eqn:Hz.
  - destruct (Ascii.eqb a "0"); simpl; [done|]. by rewrite Ha.
  - simpl in *. by rewrite Ha, IH.
Qed.

Lemma has_char_repeat c a n : Ascii.eqb a c = false -> has_char c (Py.repeat_char a n) = false.
Proof. intros Ha. induction n as [|n IH]; simpl; [done|]. by rewrite Ha, IH. Qed.

Lemma printable_ne c a : control c -> (32 <= nat_of_ascii a)%nat -> Ascii.eqb a c = false.
Proof. unfold control. intros Hc Ha. apply Ascii.eqb_neq. intros ->. lia. Qed.

Lemma has_char_digits c (d : Decimal.uint) :
  control c -> has_char c (NilEmpty.string_of_uint d) = false.
Proof.
  intros Hc.
  induction d; cbn [NilEmpty.string_of_uint has_char]; [done|..];
    rewrite IHd, (printable_ne c) by (done || (vm_compute; lia)); done.
Qed.

Lemma has_char_str_of_int c (n : Z) : control c -> has_char c (Py.str_of_int n) = false.
Proof.
  intros Hc.
  assert (forall d, has_char c (NilZero.string_of_uint d) = false) as Hu.
  { intros d. unfold NilZero.string_of_uint.
    destruct d; try apply (has_char_digits c _ Hc).
    cbn [has_char]. by rewrite (printable_ne c) by (done || (vm_compute; lia)). }
  unfold Py.str_of_int, NilZero.string_of_int.
  destruct (Z.to_int n) as [d|d]; [apply Hu|].
  cbn [has_char]. by rewrite Hu, (printable_ne c) by (done || (vm_compute; lia)).
Qed.

Lemma has_char_format_g c p x : control c -> has_char c (PyFloat.format_g p x) = false.
Proof.
  intros Hc.
  assert (forall s, has_char c (PyFloat.sign_str s) = false) as Hsign.
  { intros []; cbn [PyFloat.sign_str has_char]; [|done].
    by rewrite (printable_ne c) by (done || (vm_compute; lia)). }
  assert (forall s t, has_char c s = false -> has_char c t = false ->
                      has_char c (PyFloat.with_point s t) = false) as Hpoint.
  { intros s t Hs Ht. unfold PyFloat.with_point. destruct t; [done|].
    rewrite !has_char_append, Hs, Ht. cbn [has_char].
    by rewrite (printable_ne c) by (done || (vm_compute; lia)). }
  assert (forall X, has_char c (PyFloat.exponent_str X) = false) as Hexp.
  { intros X. unfold PyFloat.exponent_str.
    rewrite !has_char_append, has_char_str_of_int by done.
    destruct (X <? 0), (Z.abs X <? 10); cbn [has_char];
      rewrite ?(printable_ne c) by (done || (vm_compute; lia)); done. }
  destruct x as [s|s| |s m e]; cbn [PyFloat.format_g].
  - rewrite has_char_append, Hsign. cbn [has_char].
    by rewrite (printable_ne c) by (done || (vm_compute; lia)).
  - rewrite has_char_append, Hsign. cbn [has_char].
    by rewrite !(printable_ne c) by (done || (vm_compute; lia)).
  - cbn [has_char]. by rewrite !(printable_ne c) by (done || (vm_compute; lia)).
  - destruct (PyFloat.round_sig p _ _) as [d X].
    pose proof (has_char_str_of_int c d Hc) as Hd.
    rewrite has_char_append, Hsign. cbn [orb].
    destruct ((-4 <=? X) && (X <? p)); [destruct (0 <=? X)|].
    + apply Hpoint; [by apply has_char_take|].
      by apply has_char_strip_zeros, has_char_drop.
    + rewrite !has_char_append. cbn [has_char].
      rewrite !(printable_ne c) by (done || (vm_compute; lia)).
      rewrite has_char_repeat, has_char_strip_zeros; try done.
      apply printable_ne; [done|vm_compute; lia].
    + rewrite has_char_append, Hexp, orb_false_r.
      apply Hpoint; [by apply has_char_take|].
      by apply has_char_strip_zeros, has_char_drop.
Qed.

(** No cell of [format_table] breaks its line: the text of a cell holds
    neither a line feed nor a carriage return. *)
Theorem cell_text_has_no_line_break (v : Value) :
  has_char Py.newline (stringify v) = false /\
  has_char Py.creturn (stringify v) = false.
Proof.
  assert (control Py.newline /\ control Py.creturn) as [Hn Hr].
  { unfold control. split; vm_compute; lia. }
  assert (forall s,
            has_char Py.newline (Py.replace Py.creturn "\r" (Py.replace Py.newline "\n" s))
            = false /\
            has_char Py.creturn (Py.replace Py.creturn "\r" (Py.replace Py.newline "\n" s))
            = false) as Hclean.
  { intros s. split.
    - apply has_char_replace_other; [reflexivity|]. by apply has_char_replace_same.
    - by apply has_char_replace_same. }
  destruct v as [|n|x|s|b]; cbn [stringify]; try apply Hclean.
  - done.
  - split; by apply has_char_format_g.
  - rewrite !has_char_append, !has_char_str_of_int by done. done.
Qed.
End Newline.

(** ** [get_tables] *)

Section Tables.
Import Sqlite Explorer.








End Tables.

(** ** [get_schema] *)

Section Schema.
Import Sqlite Explorer.



End Schema.

(** ** [get_stats]: the counts of a column *)

Section StatsInvariants.
Import Sqlite Explorer.



Lemma percent_none (n : Z) : 0 < n -> percent 0 n = Ok "0.0%".
Proof.
  intros Hn. unfold percent, PyFloat.int_true_div.
  destruct (n =? 0) eqn:Hz; [lia|]. simpl.
  assert ((n <? 0) = false) as -> by lia. reflexivity.
Qed.

End StatsInvariants.


(** ** [search]: the exceptions *)

Section SearchErrors.
Context `{Runtime}.
Import Sqlite Explorer.







End SearchErrors.


(** ** [export_table]: the JSON record of a row *)

Section JsonRecord.
Import Explorer.

Lemma dict_set_keys (record : list (string * Value)) (h : string) (v : Value) :
  (h ∈ record.*1 -> (dict_set record h v).*1 = record.*1) /\
  (h ∉ record.*1 -> dict_set record h v = record ++ [(h, v)]).
Proof.
  induction record as [|[k w] record [IHin IHout]]; simpl.
  - split; [by intros ?%elem_of_nil|done].
  - destruct (String.eqb k h) eqn:Hk.
    + apply String.eqb_eq in Hk as ->. split; [done|].
      intros Hout. exfalso. apply Hout. left.
    + apply String.eqb_neq in Hk. split.
      * intros Hin. apply elem_of_cons in Hin as [->|Hin]; [done|].
        simpl. f_equal. auto.
      * intros Hout. f_equal. apply IHout. intros Hin. apply Hout. by right.
Qed.

Lemma dict_set_mem (record : list (string * Value)) (h : string) (v : Value) :
  (h, v) ∈ dict_set record h v.
Proof.
  induction record as [|[k w] record IH]; simpl; [left|].
  destruct (String.eqb k h) eqn:Hk.
  - apply String.eqb_eq in Hk as ->. left.
  - by right.
Qed.

Lemma dict_set_other (record : list (string * Value)) (h k : string) (v w : Value) :
  k <> h -> (k, w) ∈ record -> (k, w) ∈ dict_set record h v.
Proof.
  intros Hne. induction record as [|[k' w'] record IH]; simpl; [by intros ?%elem_of_nil|].
  intros Hin. destruct (String.eqb k' h) eqn:Hk.
  - apply String.eqb_eq in Hk as ->.
    apply elem_of_cons in Hin as [[= -> ->]|Hin]; [done|by right].
  - apply elem_of_cons in Hin as [[= -> ->]|Hin]; [left|right; auto].
Qed.

Lemma dict_set_NoDup (record : list (string * Value)) (h : string) (v : Value) :
  NoDup record.*1 -> NoDup (dict_set record h v).*1 /\
  (forall k, k ∈ (dict_set record h v).*1 <-> k = h \/ k ∈ record.*1).
Proof.
  intros Hnd. destruct (dict_set_keys record h v) as [Hin Hout].
  destruct (decide (h ∈ record.*1)) as [Hh|Hh].
  - rewrite Hin by done. split; [done|]. intros k. split; [auto|].
    intros [->|?]; done.
  - rewrite Hout by done. rewrite fmap_app. simpl. split.
    + apply NoDup_app. split; [done|]. split; [|apply NoDup_singleton].
      intros k Hk ->%list_elem_of_singleton. done.
    + intros k. rewrite elem_of_app, list_elem_of_singleton. tauto.
Qed.

(** The loop of the JSON export over the headers, from column [k] on. *)
Lemma json_loop (row : Row) (headers : list string) (k : nat)
    (record : list (string * Value)) :
  let record' :=
    foldl (fun record '(i, h) =>
             dict_set record h
               match default VNone (row !! i) with
               | VBytes b => VStr (blob_placeholder b)
               | _ => default VNone (row !! i)
               end)
          record (imap (fun i h => ((k + i)%nat, h)) headers) in
  NoDup record.*1 ->
  NoDup record'.*1 /\
  (forall h, h ∈ record'.*1 <-> h ∈ record.*1 \/ h ∈ headers) /\
  (forall i h, headers !! i = Some h ->
     (forall j, (i < j)%nat -> headers !! j <> Some h) ->
     (h, exported_cell row (k + i)) ∈ record') /\
  (forall h v, (h, v) ∈ record -> h ∉ headers -> (h, v) ∈ record') /\
  (NoDup headers -> (forall h, h ∈ headers -> h ∉ record.*1) ->
   record' = record ++ imap (fun i h => (h, exported_cell row (k + i))) headers).
Proof.
  revert k record. induction headers as [|h0 headers IH]; intros k record; simpl.
  - intros Hnd. split; [done|]. split.
    { intros h. split; [auto|]. intros [?|?%elem_of_nil]; done. }
    split; [done|]. split; [done|]. intros _ _. by rewrite app_nil_r.
  - intros Hnd.
    set (v0 := match default VNone (row !! (k + 0)%nat) with
               | VBytes b => VStr (blob_placeholder b)
               | _ => default VNone (row !! (k + 0)%nat)
               end).
    assert (v0 = exported_cell row (k + 0)) as Hv0.
    { unfold v0, exported_cell. by destruct (default VNone (row !! (k + 0)%nat)). }
    destruct (dict_set_NoDup record h0 v0 Hnd) as [Hnd1 Hkeys1].
    specialize (IH (S k) (dict_set record h0 v0)).
    rewrite (imap_ext ((fun i (h : string) => ((k + i)%nat, h)) ∘ S) (fun i h => ((S k + i)%nat, h)))
      by (intros; simpl; f_equal; lia).
    destruct (IH Hnd1) as (Hnd' & Hkeys' & Hlast & Hkeep & Hexact).
    split; [done|]. split; [|split; [|split]].
    + intros h. rewrite Hkeys', Hkeys1, elem_of_cons. tauto.
    + intros i h Hi Hlater. destruct i as [|i]; simpl in Hi.
      * injection Hi as ->. rewrite <- Hv0. apply Hkeep; [apply dict_set_mem|].
        intros Hin. apply list_elem_of_lookup_1 in Hin as [j Hj].
        by apply (Hlater (S j)); [lia|].
      * replace (k + S i)%nat with (S k + i)%nat by lia. apply Hlast; [done|].
        intros j Hj. apply (Hlater (S j)). lia.
    + intros h v Hin Hout. apply not_elem_of_cons in Hout as [Hne Hout].
      apply Hkeep; [|done]. by apply dict_set_other.
    + intros [Hh0 Hnd0]%NoDup_cons Hfresh.
      rewrite Hexact.
      * destruct (dict_set_keys record h0 v0) as [_ ->]; [|apply Hfresh; left].
        rewrite <- app_assoc. simpl. rewrite Hv0. do 2 f_equal.
        apply imap_ext. intros. simpl. do 2 f_equal. lia.
      * done.
      * intros h Hh. rewrite Hkeys1. intros [->|Hin]; [done|].
        apply (Hfresh h); [by right|done].
Qed.
End JsonRecord.

(** The record that the JSON export makes of a row has one entry per
    distinct header, and the entry of a header holds the cell of the last
    column with that header: [None] where the row has no such cell, the
    placeholder text for a [bytes] cell.  With distinct headers it lists the
    headers in order. *)
Theorem json_record_keeps_the_last_column (headers : list string) (row : Row) :
  let record := Explorer.json_record headers row in
  NoDup record.*1 /\
  (forall h, h ∈ record.*1 <-> h ∈ headers) /\
  (forall i h, headers !! i = Some h ->
     (forall j, (i < j)%nat -> headers !! j <> Some h) ->
     (h, exported_cell row i) ∈ record) /\
  (NoDup headers ->
   record = imap (fun i h => (h, exported_cell row i)) headers).
Proof.
  intros record.
  destruct (json_loop row headers 0 []) as (Hnd & Hkeys & Hlast & _ & Hexact);
    [constructor|].
  split; [exact Hnd|]. split; [|split].
  - intros h. destruct (Hkeys h) as [Hto Hfrom]. split.
    + intros Hin. by destruct (Hto Hin) as [?%elem_of_nil|?].
    + intros Hin. apply Hfrom. by right.
  - exact Hlast.
  - intros Hh. apply Hexact; [done|]. by intros h _ ?%elem_of_nil.
Qed.

(** ** [format_table]: the rectangle *)

Section Rectangle.
Context `{Runtime}.
Import TableFormatter.

Lemma len_nonneg (s : string) : 0 <= Py.len s.
Proof. unfold Py.len. lia. Qed.

Lemma len_repeat_char (c : ascii) (n : nat) : Py.len (Py.repeat_char c n) = Z.of_nat n.
Proof.
  unfold Py.len. induction n as [|n IH]; simpl; [done|]. lia.
Qed.

Lemma len_ljust (s : string) (w : Z) : Py.len (Py.ljust s w) = Z.max (Py.len s) w.
Proof. unfold Py.ljust. rewrite len_append, len_repeat_char. lia. Qed.

Lemma len_rjust (s : string) (w : Z) : Py.len (Py.rjust s w) = Z.max (Py.len s) w.
Proof. unfold Py.rjust. rewrite len_append, len_repeat_char. lia. Qed.

(** The length of [sep.join(cells)] when the cells have the lengths [ws]. *)
Lemma len_join (sep : string) (cells : list string) (ws : list Z) :
  Forall2 (fun cell w => Py.len cell = w) cells ws -> cells <> [] ->
  Py.len (Py.join sep cells)
  = foldr Z.add 0 ws + Py.len sep * (Z.of_nat (length cells) - 1).
Proof.
  induction 1 as [|cell w cells ws Hcell Hcells IH]; [done|]. intros _.
  destruct Hcells as [|cell' w' cells ws Hcell' Hcells].
  - simpl. lia.
  - specialize (IH ltac:(done)).
    change (Py.join sep (cell :: cell' :: cells))
      with (cell +:+ sep +:+ Py.join sep (cell' :: cells)).
    rewrite !len_append, IH. simpl foldr. simpl length. lia.
Qed.

(** A text cut and padded to a width fills the width, provided the width
    leaves room for the three dots when the text is cut. *)
Lemma len_cell (s : string) (w : Z) (right : bool) :
  0 <= w -> (Py.len s <= w \/ 3 <= w) ->
  Py.len (if right then Py.rjust (truncate s w) w else Py.ljust (truncate s w) w) = w.
Proof.
  intros Hw Hfit.
  assert (Py.len (truncate s w) <= w) as Hlen.
  { unfold truncate. destruct (Py.len s <=? w) eqn:Hle; [lia|].
    destruct (truncate_long s w) as [_ Hcut]; [lia|lia|].
    unfold truncate in Hcut. rewrite Hle in Hcut. lia. }
  destruct right; rewrite ?len_rjust, ?len_ljust; lia.
Qed.

Lemma column_widths_lookup (headers : list string) (str_rows : list (list string))
    (max_width : Z) (i : nat) (h : string) :
  headers !! i = Some h ->
  exists w0,
    column_widths headers str_rows max_width !! i = Some (Z.min w0 max_width) /\
    widest (Py.len h) str_rows i w0.
Proof.
  intros Hh. unfold column_widths, natural_widths.
  destruct (widths_lookup str_rows (Py.len <$> headers) i (Py.len h)) as (w0 & Hw0 & Hw).
  { by rewrite list_lookup_fmap, Hh. }
  exists w0. split; [|done]. by rewrite list_lookup_fmap, Hw0.
Qed.

End Rectangle.

(** [format_table] draws a rectangle when the maximum width is at least 3:
    the two rules, the header line and the line of every row all have the
    same length, the sum of the column widths plus three characters per
    column plus one.  The text is the title lines, these lines and the
    footer. *)
Theorem format_table_lines_have_one_length `{Runtime} (headers : list string)
    (rows : list Row) (max_width : Z) (title : option string) :
  3 <= max_width -> headers <> [] ->
  let str_rows := (fun row : Row => TableFormatter.stringify <$> row) <$> rows in
  let col_widths := TableFormatter.column_widths headers str_rows max_width in
  let width := foldr Z.add 0 col_widths + 3 * Z.of_nat (length headers) + 1 in
  exists lines,
    TableFormatter.format_table headers rows max_width title
    = Py.join (Py.chr Py.newline)
        (match title with
         | None | Some EmptyString => []
         | Some t => [EmptyString; t]
         end ++ lines ++ [TableFormatter.footer str_rows]) /\
    length lines = (length rows + 4)%nat /\
    Forall (fun line => Py.len line = width) lines.
Proof.
  intros Hmax Hheaders str_rows col_widths width.
  set (sep := TableFormatter.separator col_widths).
  set (head := TableFormatter.header_line headers col_widths).
  exists ([sep; head; sep] ++ (TableFormatter.row_line col_widths <$> str_rows) ++ [sep]).
  assert (length col_widths = length headers) as Hlen by apply column_widths_length.
  assert (col_widths <> []) as Hne.
  { intros Hnil. rewrite Hnil in Hlen. by destruct headers. }
  assert (forall i w, col_widths !! i = Some w ->
            exists h w0, headers !! i = Some h /\ w = Z.min w0 max_width /\
                         widest (Py.len h) str_rows i w0) as Hwidth.
  { intros i w Hw.
    destruct (lookup_lt_is_Some_2 headers i) as [h Hh].
    { rewrite <- Hlen. by eapply lookup_lt_Some. }
    destruct (column_widths_lookup headers str_rows max_width i h Hh) as (w0 & Hw0 & Hwd).
    fold col_widths in Hw0. rewrite Hw in Hw0. injection Hw0 as ->. eauto. }
  assert (forall i w, col_widths !! i = Some w -> 0 <= w) as Hpos.
  { intros i w Hw. destruct (Hwidth i w Hw) as (h & w0 & _ & -> & Hle & _).
    pose proof (len_nonneg h). lia. }
  assert (Py.len sep = width) as Hsep.
  { unfold sep, TableFormatter.separator. rewrite !len_append.
    rewrite (len_join _ _ col_widths).
    - rewrite length_fmap, Hlen. unfold width.
      change (Py.len "+-") with 2. change (Py.len "-+-") with 3.
      change (Py.len "-+") with 2. lia.
    - apply Forall2_fmap_l, Forall2_same_length_lookup. split; [done|].
      intros i w w' Hw Hw'. rewrite Hw in Hw'. injection Hw' as <-.
      simpl. rewrite len_repeat_char. specialize (Hpos i w Hw). lia.
    - by destruct col_widths. }
  assert (Py.len head = width) as Hhead.
  { unfold head, TableFormatter.header_line. rewrite !len_append.
    rewrite (len_join _ _ col_widths).
    - rewrite length_fmap, length_zip, Hlen, Nat.min_id. unfold width.
      change (Py.len "| ") with 2. change (Py.len " | ") with 3.
      change (Py.len " |") with 2. lia.
    - apply Forall2_fmap_l, Forall2_same_length_lookup. split.
      { rewrite length_zip. lia. }
      intros i [h w] w' Hzip Hw'. apply lookup_zip_with_Some in Hzip
        as (h' & w'' & [= <- <-] & Hh & Hw). rewrite Hw in Hw'. injection Hw' as <-.
      destruct (Hwidth i w Hw) as (h'' & w0 & Hh' & -> & Hle & _).
      rewrite Hh in Hh'. injection Hh' as <-.
      simpl. apply (len_cell h _ false); [by eapply Hpos|lia].
    - destruct headers; [done|]. by destruct col_widths. }
  assert (forall row, row ∈ str_rows ->
            Py.len (TableFormatter.row_line col_widths row) = width) as Hrow.
  { intros row Hin. unfold TableFormatter.row_line. rewrite !len_append.
    rewrite (len_join _ _ col_widths).
    - rewrite length_imap, Hlen. unfold width.
      change (Py.len "| ") with 2. change (Py.len " | ") with 3.
      change (Py.len " |") with 2. lia.
    - apply Forall2_same_length_lookup. split; [by rewrite length_imap|].
      intros i cell w Hcell Hw. rewrite list_lookup_imap, Hw in Hcell.
      injection Hcell as <-.
      destruct (Hwidth i w Hw) as (h & w0 & Hh & -> & Hle & Hall & _).
      unfold TableFormatter.render_cell. destruct (row !! i) as [s|] eqn:Hs.
      + specialize (Hall row s Hin Hs).
        apply (len_cell s _ (float_parses s)); [by eapply Hpos|lia].
      + apply (len_cell EmptyString _ false); [by eapply Hpos|].
        left. change (Py.len EmptyString) with 0. by eapply Hpos.
    - intros Hnil. apply (f_equal length) in Hnil. rewrite length_imap in Hnil.
      by destruct col_widths. }
  split; [|split].
  - unfold TableFormatter.format_table. destruct headers as [|h0 headers]; [done|].
    fold str_rows. fold col_widths. fold sep. fold head.
    f_equal. f_equal. rewrite <- !app_assoc. reflexivity.
  - rewrite !length_app, length_fmap. unfold str_rows. rewrite length_fmap. simpl. lia.
  - repeat (apply Forall_app; split); repeat constructor; try done.
    apply Forall_fmap, Forall_forall. intros row Hin. by apply Hrow.
Qed.

(** ** [format_markdown]: the text *)

Section MarkdownText.
Context `{Runtime}.
Import TableFormatter.

Lemma stringify_row_exact (row : ref) (h : store) (r : ref) (h' : store) :
  stringify_row row h = (r, h') ->
  read h' r = (fun val => VStr (stringify_md val)) <$> read h row.
Proof.
  unfold stringify_row, new_list. intros [= <- <-].
  destruct (fill_row (read h row) (<[fresh (dom h) := []]> h) (fresh (dom h)))
    as (_ & Hread & _).
  rewrite Hread. unfold read at 1. by rewrite lookup_insert_eq.
Qed.

Lemma stringify_rows_exact (rows : list ref) (h : store) (rs : list ref) (h' : store) :
  Forall (fun row => row ∈ dom h) rows ->
  stringify_rows rows h = (rs, h') ->
  Forall2 (fun row r => read h' r = (fun val => VStr (stringify_md val)) <$> read h row)
          rows rs /\
  NoDup rs /\ Forall (fun r => r ∉ dom h) rs.
Proof.
  revert h rs h'. induction rows as [|row rows IH]; intros h rs h' Hrows Hs;
    cbn [stringify_rows] in Hs.
  - injection Hs as <- <-. split; [constructor|]. split; constructor.
  - apply Forall_cons in Hrows as [Hrow Hrows].
    destruct (stringify_row row h) as [r h1] eqn:Hr.
    pose proof (stringify_row_exact _ _ _ _ Hr) as Hread.
    apply stringify_row_spec in Hr as (Hfresh & Hin & Hframe1 & _).
    destruct (stringify_rows rows h1) as [rs' h2] eqn:Hrest.
    injection Hs as <- <-.
    assert (forall l, l ∈ dom h -> l ∈ dom h1) as Hdom1.
    { intros l Hl. apply elem_of_dom. rewrite Hframe1; [by apply elem_of_dom|].
      intros ->. contradiction. }
    pose proof (stringify_rows_spec _ _ _ _ Hrest) as (_ & Hframe2 & _ & _).
    apply IH in Hrest as (Hall & Hnd & Hnew).
    2: { eapply Forall_impl; [exact Hrows|]. auto. }
    split; [|split].
    + constructor.
      * rewrite (read_other h1 h2 r (Hframe2 r Hin)). exact Hread.
      * assert (forall row', row' ∈ rows -> read h1 row' = read h row') as Hsame.
        { intros row' Hin'. apply read_other, Hframe1. intros ->.
          rewrite Forall_forall in Hrows. by apply Hfresh, Hrows. }
        clear -Hall Hsame. induction Hall as [|row' r' rows rs' Hr' _ IHall];
          constructor.
        -- rewrite <- Hsame by left. exact Hr'.
        -- apply IHall. intros. apply Hsame. by right.
    + constructor; [|done]. intros Hr. rewrite Forall_forall in Hnew. by apply (Hnew r).
    + constructor; [done|]. eapply Forall_impl; [exact Hnew|]. intros r' Hr' Hin'.
      apply Hr'. auto.
Qed.

Lemma pad_turns_exact (turns n : nat) (row : ref) (h : store) :
  (n <= turns + length (read h row))%nat ->
  read (pad_turns turns n row h) row
  = read h row ++ replicate (n - length (read h row)) (VStr EmptyString).
Proof.
  revert h. induction turns as [|turns IH]; simpl; intros h Hn.
  - replace (n - length (read h row))%nat with 0%nat by lia. by rewrite app_nil_r.
  - destruct (length (read h row) <? n)%nat eqn:Hshort.
    + apply Nat.ltb_lt in Hshort. rewrite IH.
      * rewrite read_append, length_app. simpl. rewrite <- app_assoc. f_equal.
        replace (n - length (read h row))%nat
          with (S (n - (length (read h row) + 1)))%nat by lia.
        done.
      * rewrite read_append, length_app. simpl. lia.
    + apply Nat.ltb_ge in Hshort.
      replace (n - length (read h row))%nat with 0%nat by lia. by rewrite app_nil_r.
Qed.

Lemma join_cells_texts (sep : string) (texts : list string) :
  join_cells sep (VStr <$> texts) = Ok (Py.join sep texts).
Proof.
  unfold join_cells.
  assert (Py.mapM (fun v => match v with VStr s => Ok s | _ => Raise Py.TypeError end)
            (VStr <$> texts) = Ok texts) as ->; [|done].
  induction texts as [|t texts IH]; [done|].
  rewrite fmap_cons. cbn [Py.mapM]. by rewrite IH.
Qed.

Lemma render_rows_exact (n : nat) (rs : list ref) (tss : list (list string))
    (lines : list string) (h : store) :
  Forall2 (fun r texts => read h r = VStr <$> texts) rs tss -> NoDup rs ->
  (render_rows n rs lines h).1
  = Ok (lines ++
        ((fun texts =>
            "| " +:+ Py.join " | " (texts ++ replicate (n - length texts) EmptyString)
            +:+ " |") <$> tss)).
Proof.
  revert tss lines h.
  induction rs as [|r rs IH]; intros tss lines h Hall Hnd.
  - apply Forall2_nil_inv_l in Hall as ->. simpl. by rewrite app_nil_r.
  - apply Forall2_cons_inv_l in Hall as (texts & tss' & Hr & Hall & ->).
    apply NoDup_cons in Hnd as [Hout Hnd].
    cbn [render_rows]. unfold pad.
    destruct (pad_turns_spec n n r h) as (Hframe & _).
    rewrite pad_turns_exact by lia. rewrite Hr, length_fmap.
    replace ((VStr <$> texts) ++ replicate (n - length texts) (VStr EmptyString))
      with (VStr <$> (texts ++ replicate (n - length texts) EmptyString)).
    2: { rewrite fmap_app. f_equal. by rewrite fmap_replicate. }
    rewrite join_cells_texts. cbv iota. rewrite (IH tss'); [| |done].
    + simpl. by rewrite <- app_assoc.
    + clear -Hall Hframe Hout.
      induction Hall as [|r' texts' rs tss Hr' _ IHall]; constructor.
      * rewrite <- Hr'. apply read_other, Hframe. intros ->. apply Hout. left.
      * apply IHall. intros Hin. apply Hout. by right.
Qed.

Lemma store_rows_spec (rows : list Row) (h : store) (refs : list ref) (h' : store) :
  store_rows rows h = (refs, h') ->
  Forall2 (fun r row => read h' r = row) refs rows /\
  Forall (fun r => r ∈ dom h') refs /\
  (forall l, l ∈ dom h -> h' !! l = h !! l).
Proof.
  revert h refs h'. induction rows as [|row rows IH]; intros h refs h' Hs;
    cbn [store_rows] in Hs.
  - injection Hs as <- <-. split; [constructor|]. split; [constructor|done].
  - destruct (store_rows rows (<[fresh (dom h) := row]> h)) as [rs h1] eqn:Hrest.
    injection Hs as <- <-.
    apply IH in Hrest as (Hall & Hin & Hframe).
    assert (fresh (dom h) ∈ dom (<[fresh (dom h) := row]> h)) as Hnew.
    { rewrite dom_insert_L. apply elem_of_union. left. by apply elem_of_singleton. }
    split; [|split].
    + constructor; [|done]. unfold read. rewrite Hframe by done.
      by rewrite lookup_insert_eq.
    + constructor; [|done]. apply elem_of_dom. rewrite Hframe by done.
      by rewrite lookup_insert_eq.
    + intros l Hl. rewrite Hframe.
      * apply lookup_insert_ne. intros <-. by apply (is_fresh (dom h)).
      * rewrite dom_insert_L. apply elem_of_union. by right.
Qed.

Lemma format_markdown_text (headers : list string) (rows : list ref) (h : store) :
  Forall (fun row => row ∈ dom h) rows ->
  (format_markdown headers rows h).1
  = Ok (match headers with
        | [] => "(no columns)"
        | _ =>
            Py.join (Py.chr Py.newline)
              (("| " +:+ Py.join " | " headers +:+ " |")
               :: ("| " +:+ Py.join " | " ((fun _ => "---") <$> headers) +:+ " |")
               :: ((fun row => md_line (length headers) (read h row)) <$> rows))
        end).
Proof.
  intros Hrows. unfold format_markdown. destruct headers as [|hd headers]; [done|].
  set (n := length (hd :: headers)).
  destruct (stringify_rows rows h) as [rs h1] eqn:Hs.
  apply stringify_rows_exact in Hs as (Hall & Hnd & _); [|done].
  pose proof (render_rows_exact n rs
                ((fun row => stringify_md <$> read h row) <$> rows)
                ["| " +:+ Py.join " | " (hd :: headers) +:+ " |";
                 "| " +:+ Py.join " | " ((fun _ => "---") <$> (hd :: headers)) +:+ " |"]
                h1) as Hrender.
  destruct (render_rows n rs _ h1) as [lines h2]. cbn [fst] in Hrender.
  rewrite Hrender; [| |done].
  - cbn [fst Py.bind app]. do 4 f_equal. rewrite <- list_fmap_compose.
    apply list_fmap_ext. intros i row _. cbn [compose].
    unfold md_line, md_cells. by rewrite length_fmap.
  - apply Forall2_fmap_r. apply Forall2_flip. eapply Forall2_impl; [exact Hall|].
    intros row r ->. by rewrite <- list_fmap_compose.
Qed.
End MarkdownText.

(** The text of [format_markdown] on rows given as values. *)
Lemma format_markdown_of_text `{Runtime} (headers : list string)
    (rows : list Row) :
  TableFormatter.format_markdown_of headers rows
  = Ok (match headers with
        | [] => "(no columns)"
        | _ =>
            Py.join (Py.chr Py.newline)
              (("| " +:+ Py.join " | " headers +:+ " |")
               :: ("| " +:+ Py.join " | " ((fun _ => "---") <$> headers) +:+ " |")
               :: (md_line (length headers) <$> rows))
        end).
Proof.
  unfold TableFormatter.format_markdown_of.
  destruct (TableFormatter.store_rows rows ∅) as [refs h] eqn:Hs.
  apply store_rows_spec in Hs as (Hall & Hin & _).
  assert (forall n, (fun r => md_line n (TableFormatter.read h r)) <$> refs
                    = md_line n <$> rows) as Hlines.
  { intros n. clear -Hall. induction Hall as [|r row refs rows Hr _ IH]; [done|].
    rewrite !fmap_cons. by rewrite Hr, IH. }
  rewrite format_markdown_text by done.
  destruct headers as [|hd headers]; [done|]. by rewrite Hlines.
Qed.

(** [format_markdown] on rows given as values, as [export_table] calls it:
    the header line, the rule, and one line per row that holds the texts of
    the cells of the row followed by empty cells up to the number of
    headers; a row with more cells than there are headers keeps them all.
    The call never fails. *)
Theorem format_markdown_pads_short_rows `{Runtime} (headers : list string)
    (rows : list Row) :
  TableFormatter.format_markdown_of headers rows
  = Ok (match headers with
        | [] => "(no columns)"
        | _ =>
            Py.join (Py.chr Py.newline)
              (("| " +:+ Py.join " | " headers +:+ " |")
               :: ("| " +:+ Py.join " | " ((fun _ => "---") <$> headers) +:+ " |")
               :: (md_line (length headers) <$> rows))
        end).
Proof. apply format_markdown_of_text. Qed.

(** ** [diff]: the two directions *)

Section DiffSymmetry.
Import Sqlite Explorer.



End DiffSymmetry.


(** ** [_format_size]: the unit *)

Section Binary64.

Lemma iter_xO (p d : positive) : Z.pos (Pos.iter xO p d) = Z.pos p * 2 ^ Z.pos d.
Proof.
  induction d as [|d IH] using Pos.peano_ind.
  - simpl. lia.
  - rewrite Pos.iter_succ, Pos2Z.inj_xO, IH, Pos2Z.inj_succ, Z.pow_succ_r by lia. lia.
Qed.

Lemma digits2_pos_bounds (p : positive) :
  2 ^ (Z.pos (digits2_pos p) - 1) <= Z.pos p < 2 ^ Z.pos (digits2_pos p).
Proof.
  induction p as [p IH|p IH|]; simpl digits2_pos.
  - rewrite Pos2Z.inj_succ. replace (Z.succ (Z.pos (digits2_pos p)) - 1)
      with (Z.succ (Z.pos (digits2_pos p) - 1)) by lia.
    rewrite !Z.pow_succ_r by lia. lia.
  - rewrite Pos2Z.inj_succ. replace (Z.succ (Z.pos (digits2_pos p)) - 1)
      with (Z.succ (Z.pos (digits2_pos p) - 1)) by lia.
    rewrite !Z.pow_succ_r by lia. lia.
  - simpl. lia.
Qed.

Lemma Zdigits2_bounds (m : Z) :
  0 < m -> 2 ^ (Zdigits2 m - 1) <= m < 2 ^ Zdigits2 m.
Proof. destruct m as [|p|p]; try lia. intros _. apply digits2_pos_bounds. Qed.

Lemma Zdigits2_eq (m k : Z) : 2 ^ (k - 1) <= m < 2 ^ k -> 0 < k -> Zdigits2 m = k.
Proof.
  intros [Hlo Hhi] Hk.
  assert (0 < m).
  { assert (0 < 2 ^ (k - 1)) by (apply Z.pow_pos_nonneg; lia). lia. }
  pose proof (Zdigits2_bounds m ltac:(done)) as [Hlo' Hhi'].
  assert (0 < Zdigits2 m) by (destruct m; simpl; lia).
  destruct (Z.lt_trichotomy (Zdigits2 m) k) as [Hlt|[Heq|Hgt]]; [|done|].
  - assert (2 ^ Zdigits2 m <= 2 ^ (k - 1)) by (apply Z.pow_le_mono_r; lia). lia.
  - assert (2 ^ k <= 2 ^ (Zdigits2 m - 1)) by (apply Z.pow_le_mono_r; lia). lia.
Qed.

(** A mantissa of 53 bits with an exponent in range is a float as it is. *)
Lemma binary_round_aux_canonical (s : bool) (m : positive) (e : Z) :
  Zdigits2 (Z.pos m) = 53 -> -1074 <= e <= 971 ->
  binary_round_aux PyFloat.prec PyFloat.emax s (Z.pos m) e loc_Exact = S754_finite s m e.
Proof.
  intros Hm He. unfold binary_round_aux, shr_fexp, PyFloat.prec, PyFloat.emax.
  rewrite Hm. unfold fexp, emin.
  replace (Z.max (53 + e - 53) (3 - 1024 - 53) - e) with 0 by lia.
  cbn [shr shr_record_of_loc shr_m loc_of_shr_record round_nearest_even].
  rewrite Hm.
  replace (Z.max (53 + e - 53) (3 - 1024 - 53) - e) with 0 by lia.
  cbn [shr shr_record_of_loc shr_m].
  assert ((e <=? 1024 - 53) = true) as -> by lia. done.
Qed.

(** [float(n)] is exact for [0 < n < 2^53]. *)
Lemma of_int_exact (n : Z) :
  0 < n < 2 ^ 53 ->
  exists m e,
    PyFloat.of_int n = Ok (S754_finite false m e) /\
    Zdigits2 (Z.pos m) = 53 /\ e = Zdigits2 n - 53 /\
    Z.pos m = n * 2 ^ (- e).
Proof.
  intros Hn. destruct n as [|p|p]; try lia.
  pose proof (Zdigits2_bounds (Z.pos p) ltac:(lia)) as Hd.
  assert (1 <= Zdigits2 (Z.pos p) <= 53) as Hrange.
  { split; [simpl; lia|]. apply Zdigits2_le; lia. }
  unfold PyFloat.of_int, binary_normalize, binary_round, shl_align.
  change (Z.pos (digits2_pos p)) with (Zdigits2 (Z.pos p)) in *.
  set (d := Zdigits2 (Z.pos p)) in *.
  unfold fexp, emin, PyFloat.prec, PyFloat.emax.
  replace (Z.max (d + 0 - 53) (3 - 1024 - 53) - 0) with (d - 53) by lia.
  destruct (d - 53) as [|k|k] eqn:Hk; try lia.
  - exists p, 0. rewrite binary_round_aux_canonical by (fold d; lia).
    split; [done|]. split; [fold d; lia|]. split; [lia|]. simpl. lia.
  - replace (Z.max (d + 0 - 53) (3 - 1024 - 53)) with (Z.neg k) by lia.
    assert (Z.pos (Pos.iter xO p k) = Z.pos p * 2 ^ Z.pos k) as Hm by apply iter_xO.
    assert (Zdigits2 (Z.pos (Pos.iter xO p k)) = 53) as Hdigits.
    { apply Zdigits2_eq; [|lia]. rewrite Hm.
      replace 53 with (d + Z.pos k) at 2 by lia.
      replace (53 - 1) with (d - 1 + Z.pos k) by lia.
      rewrite !Z.pow_add_r by lia.
      assert (0 < 2 ^ Z.pos k) by (apply Z.pow_pos_nonneg; lia). nia. }
    exists (Pos.iter xO p k), (Z.neg k).
    rewrite binary_round_aux_canonical by (done || lia).
    split; [done|]. split; [done|]. split; [lia|]. rewrite Hm. done.
Qed.


Lemma of_int_1024 : PyFloat.of_int 1024 = Ok kilo.
Proof. reflexivity. Qed.

(** Dividing by 1024.0 lowers the exponent by 10 and keeps the mantissa. *)
Lemma div_kilo (m : positive) (e : Z) :
  Zdigits2 (Z.pos m) = 53 -> -1063 <= e <= 971 ->
  PyFloat.div (S754_finite false m e) kilo = S754_finite false m (e - 10).
Proof.
  intros Hm He. unfold PyFloat.div, kilo, SFdiv, SFdiv_core_binary.
  rewrite Hm. change (Zdigits2 4503599627370496) with 53.
  assert (Z.min (fexp PyFloat.prec PyFloat.emax (53 + e - (53 + -42))) (e - -42)
          = e - 11) as Hmin.
  { unfold fexp, emin, PyFloat.prec, PyFloat.emax. lia. }
  rewrite !Hmin.
  replace (e - -42 - (e - 11)) with 53 by lia.
  cbv iota beta. unfold PyFloat.prec, PyFloat.emax.
  rewrite Z.shiftl_mul_pow2 by lia.
  rewrite (surjective_pairing (Z.div_eucl _ _)).
  change (fst (Z.div_eucl ?a ?b)) with (a / b).
  change (snd (Z.div_eucl ?a ?b)) with (a mod b).
  replace (Z.pos m * 2 ^ 53) with (Z.pos m~0 * 4503599627370496) by lia.
  rewrite Z.div_mul, Z.mod_mul by lia.
  change (new_location 4503599627370496 0) with loc_Exact.
  simpl xorb.
  unfold binary_round_aux, shr_fexp.
  assert (Zdigits2 (Z.pos m~0) = 54) as ->.
  { change (Zdigits2 (Z.pos m~0)) with (Z.pos (Pos.succ (digits2_pos m))).
    rewrite Pos2Z.inj_succ. change (Z.pos (digits2_pos m)) with (Zdigits2 (Z.pos m)). lia. }
  unfold fexp, emin.
  replace (Z.max (54 + (e - 11) - 53) (3 - 1024 - 53) - (e - 11)) with 1 by lia.
  change (shr (shr_record_of_loc (Z.pos m~0) loc_Exact) (e - 11) 1)
    with ({| shr_m := Z.pos m; shr_r := false; shr_s := false |}, e - 11 + 1).
  cbv iota beta.
  change (loc_of_shr_record {| shr_m := Z.pos m; shr_r := false; shr_s := false |})
    with loc_Exact.
  change (shr_m {| shr_m := Z.pos m; shr_r := false; shr_s := false |}) with (Z.pos m).
  change (round_nearest_even (Z.pos m) loc_Exact) with (Z.pos m).
  rewrite Hm.
  replace (Z.max (53 + (e - 11 + 1) - 53) (3 - 1024 - 53) - (e - 11 + 1)) with 0 by lia.
  change (shr (shr_record_of_loc (Z.pos m) loc_Exact) (e - 11 + 1) 0)
    with ({| shr_m := Z.pos m; shr_r := false; shr_s := false |}, e - 11 + 1).
  cbv iota beta.
  change (shr_m {| shr_m := Z.pos m; shr_r := false; shr_s := false |}) with (Z.pos m).
  cbv iota.
  assert ((e - 11 + 1 <=? 1024 - 53) = true) as -> by lia.
  f_equal. lia.
Qed.

(** [size >= 1024] on a float of 53 bits looks at the exponent only. *)
Lemma geb_kilo (m : positive) (e : Z) :
  Zdigits2 (Z.pos m) = 53 ->
  PyFloat.geb (S754_finite false m e) kilo = (-42 <=? e).
Proof.
  intros Hm. unfold PyFloat.geb, SFleb, SFcompare, kilo.
  destruct (Z.compare_spec (-42) e) as [<-|Hlt|Hgt].
  - pose proof (Zdigits2_bounds (Z.pos m) ltac:(lia)) as [Hlo _]. rewrite Hm in Hlo.
    change (2 ^ (53 - 1)) with (Z.pos 4503599627370496) in Hlo.
    fold (Pos.compare 4503599627370496 m).
    destruct (Pos.compare_spec 4503599627370496 m) as [Heq|Hlt|Hgt]; try reflexivity.
    apply Pos2Z.pos_lt_pos in Hgt. exfalso. revert Hlo Hgt. 
    generalize (Z.pos 4503599627370496) (Z.pos m). intros; lia.
  - assert ((-42 <=? e) = true) as -> by lia. done.
  - assert ((-42 <=? e) = false) as -> by lia. done.
Qed.

Import Explorer.

(** The loop of [_format_size] on such a float: the number of divisions. *)
Lemma scale_size_steps (left : nat) (m : positive) (e : Z) (i : nat) :
  Zdigits2 (Z.pos m) = 53 -> -1063 + 10 * Z.of_nat left <= e <= 971 ->
  let steps := Z.to_nat (Z.min (Z.of_nat left) (Z.max 0 ((e + 52) / 10))) in
  scale_size left (S754_finite false m e) i
  = Ok (S754_finite false m (e - 10 * Z.of_nat steps), (i + steps)%nat).
Proof.
  intros Hm. revert e i. induction left as [|left IH]; intros e i He steps.
  - simpl. subst steps. simpl. f_equal. f_equal; [f_equal|]; lia.
  - cbn [scale_size]. rewrite of_int_1024. cbn [Py.bind].
    rewrite geb_kilo by done. destruct (Z.leb_spec (-42) e) as [Hge|Hge].
    + rewrite div_kilo by (done || lia). rewrite IH by lia.
      assert (steps = S (Z.to_nat (Z.min (Z.of_nat left)
                                    (Z.max 0 ((e - 10 + 52) / 10))))) as ->.
      { subst steps.
        replace (e - 10 + 52) with (e + 52 + -1 * 10) by lia.
        rewrite Z.div_add by lia.
        assert (1 <= (e + 52) / 10) by (apply Z.div_le_lower_bound; lia).
        generalize dependent ((e + 52) / 10). intros; lia. }
      f_equal. f_equal; [f_equal|]; lia.
    + assert (steps = 0%nat) as ->.
      { subst steps.
        assert ((e + 52) / 10 <= 0).
        { apply Z.lt_succ_r, Z.div_lt_upper_bound; lia. }
        generalize dependent ((e + 52) / 10). intros; lia. }
      f_equal. f_equal; [f_equal|]; lia.
Qed.

Lemma div_rne_scale (a b c : Z) :
  0 < b -> 0 < c -> PyFloat.div_rne (a * c) (b * c) = PyFloat.div_rne a b.
Proof.
  intros Hb Hc. unfold PyFloat.div_rne.
  rewrite Z.div_mul_cancel_r by lia.
  rewrite Z.mul_mod_distr_r by lia.
  replace (2 * (a mod b * c) ?= b * c) with (2 * (a mod b) ?= b); [done|].
  destruct (Z.compare_spec (2 * (a mod b)) b), (Z.compare_spec (2 * (a mod b * c)) (b * c));
    try reflexivity; nia.
Qed.

End Binary64.

(** The unit and the number that [_format_size] shows. *)
Lemma format_size_spec (n k : Z) :
  0 < n < 2 ^ 53 -> 0 <= k <= 4 -> 1024 ^ k <= n -> (k < 4 -> n < 1024 ^ (k + 1)) ->
  exists text,
    Explorer._format_size n = Ok text /\
    (k = 0 -> text = Py.str_of_int n +:+ " B") /\
    (0 < k ->
     exists m e unit,
       Explorer.units !! Z.to_nat k = Some unit /\
       text = PyFloat.format_f 1 (S754_finite false m e) +:+ " " +:+ unit /\
       PyFloat.numerator m e * 1024 ^ k = n * PyFloat.denominator e /\
       PyFloat.scale_rne (PyFloat.numerator m e) (PyFloat.denominator e) 1
       = PyFloat.div_rne (10 * n) (1024 ^ k)).
Proof.
  intros Hn Hk Hlo Hhi.
  destruct (of_int_exact n Hn) as (m & e0 & Hfloat & Hm & He0 & Hval).
  pose proof (Zdigits2_bounds n ltac:(lia)) as [Hdlo Hdhi].
  set (d := Zdigits2 n) in *.
  assert (1 <= d <= 53) as Hd.
  { split; [destruct n; simpl in *; lia|]. apply Zdigits2_le; lia. }
  assert (forall j, 0 <= j -> 1024 ^ j = 2 ^ (10 * j)) as Hpow.
  { intros j Hj. change 1024 with (2 ^ 10). by rewrite <- Z.pow_mul_r by lia. }
  rewrite Hpow in Hlo by lia.
  assert (10 * k < d) as Hkd.
  { apply (Z.pow_lt_mono_r_iff 2); lia. }
  assert (k < 4 -> d - 1 < 10 * (k + 1)) as Hdk.
  { intros Hk4. specialize (Hhi Hk4). rewrite Hpow in Hhi by lia.
    apply (Z.pow_lt_mono_r_iff 2); lia. }
  assert (Z.min 4 (Z.max 0 ((e0 + 52) / 10)) = k) as Hsteps.
  { subst e0. fold d. replace (d - 53 + 52) with (d - 1) by lia.
    assert (k <= (d - 1) / 10) by (apply Z.div_le_lower_bound; lia).
    assert (k < 4 -> (d - 1) / 10 < k + 1).
    { intros Hk4. apply Z.div_lt_upper_bound; [lia|]. specialize (Hdk Hk4). lia. }
    generalize dependent ((d - 1) / 10). intros; lia. }
  unfold Explorer._format_size.
  assert ((n <? 0) = false) as -> by lia. assert ((n =? 0) = false) as -> by lia.
  rewrite Hfloat. cbn [Py.bind].
  change (length Explorer.units - 1)%nat with 4%nat.
  rewrite scale_size_steps by (done || (change (Z.of_nat 4) with 4; lia)).
  change (Z.of_nat 4) with 4. rewrite Hsteps. cbn [Py.bind Nat.add].
  set (e := e0 - 10 * Z.of_nat (Z.to_nat k)).
  assert (e = e0 - 10 * k) as He by (unfold e; lia).
  assert (PyFloat.numerator m e = Z.pos m /\ PyFloat.denominator e = 2 ^ (- e0) * 2 ^ (10 * k))
    as [HN HD].
  { unfold PyFloat.numerator, PyFloat.denominator.
    replace (Z.max e 0) with 0 by lia. replace (Z.max (- e) 0) with (- e0 + 10 * k) by lia.
    rewrite Z.pow_add_r by lia. split; lia. }
  assert (0 < 2 ^ (- e0)) as Hc by (apply Z.pow_pos_nonneg; lia).
  assert (0 < 2 ^ (10 * k)) as Hu by (apply Z.pow_pos_nonneg; lia).
  destruct (Z.to_nat k) as [|i] eqn:Hi.
  - eexists. split; [reflexivity|]. split; [done|]. lia.
  - assert (exists unit, Explorer.units !! S i = Some unit) as [unit Hunit].
    { apply lookup_lt_is_Some_2. simpl. lia. }
    unfold Py.index. rewrite Hunit. cbn [Py.bind].
    eexists. split; [reflexivity|]. split; [lia|]. intros _.
    exists m, e, unit. split; [done|]. split; [done|].
    rewrite Hpow by lia. rewrite HN, HD, Hval. split; [lia|].
    unfold PyFloat.scale_rne. cbn [Z.leb Z.compare]. 
    change (10 ^ 1) with 10.
    replace (n * 2 ^ (- e0) * 10) with (10 * n * 2 ^ (- e0)) by lia.
    rewrite (Z.mul_comm (2 ^ (- e0))).
    by apply div_rne_scale.
Qed.

(** [_format_size] on a byte count below 2^53: the unit is the largest of
    B, KB, MB, GB, TB that does not exceed the count, the count is shown
    as it is in bytes, and otherwise the number shown is the count divided
    by the unit, exactly (no rounding before the one of the printing),
    with one decimal. *)
Theorem format_size_picks_the_unit (n k : Z) :
  0 < n < 2 ^ 53 -> 0 <= k <= 4 -> 1024 ^ k <= n -> (k < 4 -> n < 1024 ^ (k + 1)) ->
  exists text,
    Explorer._format_size n = Ok text /\
    (k = 0 -> text = Py.str_of_int n +:+ " B") /\
    (0 < k ->
     exists m e unit,
       Explorer.units !! Z.to_nat k = Some unit /\
       text = PyFloat.format_f 1 (S754_finite false m e) +:+ " " +:+ unit /\
       PyFloat.numerator m e * 1024 ^ k = n * PyFloat.denominator e /\
       PyFloat.scale_rne (PyFloat.numerator m e) (PyFloat.denominator e) 1
       = PyFloat.div_rne (10 * n) (1024 ^ k)).
Proof. apply format_size_spec. Qed.

(** [_format_size] returns for every count below 2^53. *)
Lemma format_size_total (n : Z) :
  n < 2 ^ 53 -> exists text, Explorer._format_size n = Ok text.
Proof.
  intros Hn. destruct (Z.le_gt_cases n 0) as [Hle|Hpos].
  - unfold Explorer._format_size. destruct (n <? 0) eqn:Hneg; [eauto|].
    assert ((n =? 0) = true) as -> by lia. eauto.
  - assert (exists k, 0 <= k <= 4 /\ 1024 ^ k <= n /\ (k < 4 -> n < 1024 ^ (k + 1)))
      as (k & Hk & Hlo & Hhi).
    { destruct (Z.lt_ge_cases n (1024 ^ 1)); [exists 0; simpl in *; lia|].
      destruct (Z.lt_ge_cases n (1024 ^ 2)); [exists 1; simpl in *; lia|].
      destruct (Z.lt_ge_cases n (1024 ^ 3)); [exists 2; simpl in *; lia|].
      destruct (Z.lt_ge_cases n (1024 ^ 4)); [exists 3; simpl in *; lia|].
      exists 4. simpl in *. lia. }
    destruct (format_size_spec n k) as (text & Htext & _); eauto.
Qed.

Lemma format_size_witness :
  exists text, Explorer._format_size 4096 = Ok text.
Proof.
  destruct (format_size_picks_the_unit 4096 1) as (text & Htext & _).
  - vm_compute. split; reflexivity.
  - lia.
  - vm_compute. discriminate.
  - intros _. vm_compute. reflexivity.
  - by exists text.
Defined.

(** ** [diff]: the lists of the report *)

Section DiffLists.
Import Sqlite Explorer.




End DiffLists.


(** ** [search]: one table *)

Section SearchAll.
Context `{Runtime}.
Import Sqlite Explorer.

Lemma scan_rows_appends tbl term names cols rows ms r ms' r' :
  scan_rows tbl term names cols rows ms r = Ok (ms', r') ->
  exists new,
    ms' = ms ++ new /\ (length new <= length rows)%nat /\
    Forall (fun m => sm_table m = tbl) new.
Proof.
  revert ms r. induction rows as [|row rows IH]; simpl; intros ms r Hs.
  - injection Hs as <- <-. exists []. by rewrite app_nil_r.
  - unbind_in Hs as mc Hmc. unbind_in Hs as data Hdata.
    destruct (r - 1 <=? 0).
    + injection Hs as <- <-. eexists. split; [done|]. split; [simpl; lia|].
      by repeat constructor.
    + apply IH in Hs as (new & -> & Hlen & Hall).
      eexists. rewrite <- app_assoc. split; [done|]. split; [simpl; lia|].
      by constructor.
Qed.
End SearchAll.

(** [search] in one table that has text-like columns and whose statement
    the engine answers: with a positive limit there is one match per row
    that the engine selects, up to the limit, each under the name of the
    table. *)
Theorem search_finds_every_selected_row `{Runtime} (d : Sqlite.db) (term tbl : string)
    (limit : Z) (ms : list Explorer.search_match) :
  0 < limit ->
  let cols := Explorer.text_columns (Sqlite.table_info d tbl) in
  cols <> [] ->
  Sqlite.fails d (Sqlite.Like tbl cols term limit) = false ->
  Explorer.search d term (Some [tbl]) limit = Ok ms ->
  length ms = Nat.min (Z.to_nat limit) (length (Sqlite.like_rows d tbl cols term)) /\
  Forall (fun m => Explorer.sm_table m = tbl) ms.
Proof.
  intros Hlimit cols Hcols Hok Hsearch.
  unfold Explorer.search in Hsearch. cbn [Explorer.search_loop] in Hsearch.
  assert ((limit <=? 0) = false) as Hpos by lia. rewrite Hpos in Hsearch.
  fold cols in Hsearch. destruct cols as [|c cs] eqn:Hc; [done|].
  unfold Sqlite.execute_like, Sqlite.on in Hsearch. rewrite Hok in Hsearch.
  unbind_in Hsearch as out Hscan. destruct out as [ms' r'].
  injection Hsearch as <-.
  set (rows := Sqlite.limit_rows limit (Sqlite.like_rows d tbl (c :: cs) term)) in *.
  assert (length rows = Nat.min (Z.to_nat limit)
                          (length (Sqlite.like_rows d tbl (c :: cs) term))) as Hrows.
  { unfold rows, Sqlite.limit_rows. assert ((limit <? 0) = false) as -> by lia.
    by rewrite List.length_firstn. }
  pose proof (scan_rows_count _ _ _ _ _ _ _ _ _ Hlimit Hscan) as [Hr' Hcount].
  destruct (scan_rows_appends _ _ _ _ _ _ _ _ _ Hscan) as (new & -> & Hlen & Hall).
  simpl in *. split; [|done].
  destruct (Z.eq_dec r' 0) as [->|Hne].
  - lia.
  - pose proof (scan_rows_all _ _ _ _ _ _ _ _ _ Hlimit Hscan ltac:(lia)) as Hfull.
    simpl in Hfull. lia.
Qed.

(** ** [_display_tables] *)

Section DisplayTables.
Context `{Runtime}.
Import Sqlite Explorer Cli.


End DisplayTables.



(** ** [get_info] *)

Section InfoFacts.
Import Sqlite Explorer Metadata.

Lemma count_user_tables (d : db) :
  count_user (m_name <$> master d) = Z.of_nat (length (get_tables d)).
Proof.
  unfold count_user, get_tables. rewrite length_fmap. unfold user_table_names.
  rewrite merge_sort_Permutation. f_equal.
  induction (m_name <$> master d) as [|n names IH]; [done|].
  rewrite filter_cons. cbn [List.filter].
  destruct (decide (like "sqlite_%" n = false)) as [Hl|Hl].
  - rewrite Hl. simpl. f_equal. exact IH.
  - apply not_false_is_true in Hl. rewrite Hl. exact IH.
Qed.

Lemma count_user_bounds (names : list string) :
  0 <= count_user names <= Z.of_nat (length names).
Proof.
  unfold count_user.
  pose proof (List.filter_length_le (fun n => negb (like "sqlite_%" n)) names). lia.
Qed.
End InfoFacts.

(** [get_info] counts the tables that [get_tables] lists and shows the file
    size as [get_size] does; it returns for every file smaller than 2^53
    bytes. *)
Theorem get_info_agrees_with_the_listing (d : Sqlite.db) (f : Metadata.facts) :
  (forall i, Metadata.get_info d f = Ok i ->
     Metadata.i_table_count i = Z.of_nat (length (Explorer.get_tables d)) /\
     0 <= Metadata.i_index_count i <= Z.of_nat (length (Metadata.index_names f)) /\
     Explorer._format_size (Metadata.i_file_size i) = Ok (Metadata.i_file_size_display i) /\
     forall `{Runtime} report,
       Explorer.get_size d = Ok report ->
       Explorer.sz_file_size_display report = Metadata.i_file_size_display i /\
       Explorer.sz_page_count report = Metadata.i_page_count i /\
       Explorer.sz_free_pages report = Metadata.i_freelist_count i) /\
  (Sqlite.file_size d < 2 ^ 53 -> exists i, Metadata.get_info d f = Ok i).
Proof.
  split.
  - intros i Hi. unfold Metadata.get_info in Hi. unbind_in Hi as display Hdisplay.
    injection Hi as <-. simpl.
    split; [apply count_user_tables|]. split; [apply count_user_bounds|].
    split; [done|].
    intros H report Hreport. unfold Explorer.get_size in Hreport.
    unbind_in Hreport as sizes Hsizes. unbind_in Hreport as display' Hdisplay'.
    unbind_in Hreport as used Hused. unbind_in Hreport as free Hfree.
    unbind_in Hreport as pct Hpct. injection Hreport as <-. simpl.
    rewrite Hdisplay in Hdisplay'. by injection Hdisplay' as <-.
  - intros Hsize. unfold Metadata.get_info.
    destruct (format_size_total (Sqlite.file_size d) Hsize) as [text ->]. simpl. eauto.
Qed.

(** ** [vacuum] and the connection *)

Section ConnectionFacts.
Import Connection.

Lemma close_forgets (self : explorer) :
  _conn (close self).2 = None /\ db_path (close self).2 = db_path self.
Proof. unfold close. destruct (_conn self) eqn:Hc; simpl; auto. Qed.
End ConnectionFacts.

(** [vacuum] of a file smaller than 2^53 bytes that did not grow returns its
    report: the saving is the difference of the two sizes, a file that kept
    its size saved [0 B] and [0.0%], and a file that was empty before saved
    [0.0%].  Whatever happens, the explorer has no connection afterwards. *)
Theorem vacuum_reports_the_saving (self : Connection.explorer) (before after : Z) :
  0 <= after <= before -> before < 2 ^ 53 ->
  exists report self',
    Connection.vacuum self before (Ok after) = (Ok report, self') /\
    Connection._conn self' = None /\
    Connection.db_path self' = Connection.db_path self /\
    Connection.saved report = before - after /\
    Explorer._format_size before = Ok (Connection.before_size_display report) /\
    Explorer._format_size after = Ok (Connection.after_size_display report) /\
    Explorer._format_size (before - after) = Ok (Connection.saved_display report) /\
    (after = before ->
     Connection.saved_display report = "0 B" /\ Connection.saved_pct report = "0.0%") /\
    (after = 0 -> 0 < before ->
     Connection.saved_display report = Connection.before_size_display report /\
     Connection.saved_pct report = "100.0%") /\
    forall e, Connection.vacuum self before (Raise e) = (Raise e, self').
Proof.
  intros Hafter Hbefore. unfold Connection.vacuum.
  destruct (format_size_total before) as [tb Htb]; [lia|].
  destruct (format_size_total after) as [ta Hta]; [lia|].
  destruct (format_size_total (before - after)) as [ts Hts]; [lia|].
  assert (exists tp, (if 0 <? before then Explorer.percent (before - after) before
                      else Ok "0.0%") = Ok tp) as [tp Htp].
  { destruct (0 <? before) eqn:Hpos; [|eauto].
    apply percent_total; lia. }
  cbn [Py.bind]. rewrite Htb, Hta, Hts, Htp. cbn [Py.bind].
  eexists _, _. split; [reflexivity|]. cbn.
  destruct (close_forgets self) as [Hconn Hpath].
  split; [exact Hconn|]. split; [exact Hpath|].
  split; [reflexivity|]. split; [reflexivity|]. split; [reflexivity|]. split; [reflexivity|].
  split; [|split; [|reflexivity]].
  - intros ->. rewrite Z.sub_diag in Hts, Htp.
    split; [by injection Hts as <-|].
    destruct (0 <? before) eqn:Hpos; [|by injection Htp as <-].
    rewrite percent_none in Htp by lia. by injection Htp as <-.
  - intros -> Hpos. rewrite Z.sub_0_r in Hts, Htp.
    split; [congruence|].
    assert ((0 <? before) = true) as Hlt by lia. rewrite Hlt in Htp.
    rewrite percent_all in Htp by done. by injection Htp as <-.
Qed.

Lemma vacuum_witness :
  exists report self',
    Connection.vacuum {| Connection.db_path := "demo.db"; Connection._conn := None |}
      16384 (Ok 12288) = (Ok report, self') /\
    Connection.saved report = 4096.
Proof.
  destruct (vacuum_reports_the_saving
              {| Connection.db_path := "demo.db"; Connection._conn := None |}
              16384 12288) as (report & self' & Hv & _ & _ & Hs & _); [lia|lia|].
  exists report, self'. split; [exact Hv|exact Hs].
Defined.

(** A connection is made once: while the explorer holds the connection
    that [_connect] returned, [_connect] returns it again whatever mode is
    asked for and opens nothing.  [close] closes that connection and the
    explorer then holds none, so a second [close] closes nothing.  A
    [_connect] that raises leaves the explorer as it was. *)
Theorem connection_is_kept_until_closed
    (connect_uri connect_path : string -> result nat)
    (self self' : Connection.explorer) (conn : Connection.connection) (readonly : bool) :
  Connection._connect connect_uri connect_path readonly self = (Ok conn, self') ->
  Connection._conn self' = Some conn /\
  Connection.db_path self' = Connection.db_path self /\
  (Connection._conn self = None -> Connection.row_factory conn = true) /\
  (forall uri' path' again,
     Connection._connect uri' path' again self' = (Ok conn, self')) /\
  (Connection.close self').1 = Some (Connection.handle conn) /\
  Connection._conn (Connection.close self').2 = None /\
  Connection.close (Connection.close self').2 = (None, (Connection.close self').2) /\
  (forall uri' path' again e r,
     Connection._connect uri' path' again self = (Raise e, r) -> r = self).
Proof.
  intros Hconnect.
  assert (Connection._conn self' = Some conn /\
          Connection.db_path self' = Connection.db_path self /\
          (Connection._conn self = None -> Connection.row_factory conn = true))
    as (Hheld & Hpath & Hfactory).
  { unfold Connection._connect in Hconnect.
    destruct (Connection._conn self) as [c|] eqn:Hc.
    - injection Hconnect as <- <-. by rewrite Hc.
    - destruct (if readonly then _ else _) as [h|e]; [|discriminate].
      by injection Hconnect as <- <-. }
  split; [exact Hheld|]. split; [exact Hpath|]. split; [exact Hfactory|].
  split; [|split; [|split; [|split]]].
  - intros uri' path' again. unfold Connection._connect. by rewrite Hheld.
  - unfold Connection.close. by rewrite Hheld.
  - unfold Connection.close. by rewrite Hheld.
  - unfold Connection.close. rewrite Hheld. reflexivity.
  - intros uri' path' again e r Hfail. unfold Connection._connect in Hfail.
    destruct (Connection._conn self) as [c|]; [discriminate|].
    destruct (if again then _ else _) as [h|e']; [discriminate|].
    by injection Hfail as _ <-.
Qed.

(** An example: the read-only URI is refused with [OperationalError], the
    plain path gives connection 7, which a later call for a writable
    connection returns again. *)
Lemma connection_witness :
  Connection._connect (fun _ => Raise Py.OperationalError) (fun _ => Ok 7%nat) true
    {| Connection.db_path := "demo.db"; Connection._conn := None |}
  = (Ok {| Connection.handle := 7; Connection.row_factory := true |},
     {| Connection.db_path := "demo.db";
        Connection._conn := Some {| Connection.handle := 7; Connection.row_factory := true |} |}) /\
  Connection._connect (fun _ => Raise Py.OperationalError) (fun _ => Raise Py.OperationalError)
    false
    {| Connection.db_path := "demo.db";
       Connection._conn := Some {| Connection.handle := 7; Connection.row_factory := true |} |}
  = (Ok {| Connection.handle := 7; Connection.row_factory := true |},
     {| Connection.db_path := "demo.db";
        Connection._conn := Some {| Connection.handle := 7; Connection.row_factory := true |} |}).
Proof.
  split; [reflexivity|].
  apply (connection_is_kept_until_closed
           (fun _ => Raise Py.OperationalError) (fun _ => Ok 7%nat)
           {| Connection.db_path := "demo.db"; Connection._conn := None |} _ _ true).
  reflexivity.
Defined.

(** ** [_display_diff]: a database and itself *)

Section SelfDiff.
Import Sqlite Explorer.



End SelfDiff.



(** ** [get_size]: the pages of the file *)

Section SizeReport.
Context `{Runtime}.
Import Sqlite Explorer.

End SizeReport.



(** ** More properties on the sample database *)

(** The table of the sample users under the default width: seven lines of
    one length between the title and the footer. *)
Lemma format_table_rectangle_witness :
  exists lines,
    TableFormatter.format_table (H := CPython.runtime) ["id"; "name"]
      [[VInt 1; VStr "Alice"]; [VInt 2; VStr "Bob"]; [VInt 3; VNone]] 40 (Some "USERS")
    = Py.join (Py.chr Py.newline)
        ([EmptyString; "USERS"] ++ lines ++ [TableFormatter.footer
           [["1"; "Alice"]; ["2"; "Bob"]; ["3"; "NULL"]]]) /\
    length lines = 7%nat /\
    Forall (fun line => Py.len line = 14) lines.
Proof.
  destruct (format_table_lines_have_one_length (H := CPython.runtime) ["id"; "name"]
              [[VInt 1; VStr "Alice"]; [VInt 2; VStr "Bob"]; [VInt 3; VNone]] 40
              (Some "USERS")) as (lines & Htext & Hlen & Hall); [lia|discriminate|].
  exists lines. split; [exact Htext|]. split; [exact Hlen|exact Hall].
Defined.


(** The sample users and the letter a: three rows are selected, the limit
    of two gives two matches. *)
Lemma search_one_table_witness :
  exists ms,
    Explorer.search (H := CPython.runtime) Demo.database "a" (Some ["users"]) 2 = Ok ms /\
    length ms = 2%nat /\
    Forall (fun m => Explorer.sm_table m = "users") ms.
Proof.
  eexists. split; [vm_compute; reflexivity|].
  eapply (search_finds_every_selected_row (H := CPython.runtime) Demo.database "a" "users" 2).
  - lia.
  - discriminate.
  - reflexivity.
  - vm_compute. reflexivity.
Defined.
